(** * The tool registry and the content-hash cache of the MCP development server

    A shallow embedding of [tools/cache_manager.py], [tools/base_tool.py] and
    the cache-key functions of [tools/file_tools.py] and [tools/ast_tools.py],
    with the properties the specification states about them.

    Python [str] values are modelled by [string], read as the UTF-8 bytes of
    the text, so that [s.encode()] is the identity; Python [int]s are [Z];
    [dict]s with string keys are [gmap string _]. *)

From Stdlib Require Import ZArith List Ascii String DecimalString.
From stdpp Require Import gmap strings list fin_maps sorting.

Local Open Scope Z_scope.

(** ** hashlib.md5

    [hashlib.md5(data).hexdigest()] as RFC 1321 defines it, on 32-bit words
    held in [Z] with the wrap-around written out. *)
Module MD5.

Definition mask32 : Z := 0xffffffff.

Definition add32 (a b : Z) : Z := Z.land (a + b) mask32.

Definition not32 (a : Z) : Z := Z.lxor a mask32.

Definition rotl32 (x n : Z) : Z :=
  Z.land (Z.lor (Z.shiftl x n) (Z.shiftr x (32 - n))) mask32.

(** The per-round left rotations. *)
Definition S_table : list Z :=
  [ 7; 12; 17; 22; 7; 12; 17; 22; 7; 12; 17; 22; 7; 12; 17; 22;
    5;  9; 14; 20; 5;  9; 14; 20; 5;  9; 14; 20; 5;  9; 14; 20;
    4; 11; 16; 23; 4; 11; 16; 23; 4; 11; 16; 23; 4; 11; 16; 23;
    6; 10; 15; 21; 6; 10; 15; 21; 6; 10; 15; 21; 6; 10; 15; 21 ].

(** [floor (2^32 * abs (sin (i + 1)))] for [i] from 0 to 63. *)
Definition K_table : list Z :=
  [ 0xd76aa478; 0xe8c7b756; 0x242070db; 0xc1bdceee;
    0xf57c0faf; 0x4787c62a; 0xa8304613; 0xfd469501;
    0x698098d8; 0x8b44f7af; 0xffff5bb1; 0x895cd7be;
    0x6b901122; 0xfd987193; 0xa679438e; 0x49b40821;
    0xf61e2562; 0xc040b340; 0x265e5a51; 0xe9b6c7aa;
    0xd62f105d; 0x02441453; 0xd8a1e681; 0xe7d3fbc8;
    0x21e1cde6; 0xc33707d6; 0xf4d50d87; 0x455a14ed;
    0xa9e3e905; 0xfcefa3f8; 0x676f02d9; 0x8d2a4c8a;
    0xfffa3942; 0x8771f681; 0x6d9d6122; 0xfde5380c;
    0xa4beea44; 0x4bdecfa9; 0xf6bb4b60; 0xbebfbc70;
    0x289b7ec6; 0xeaa127fa; 0xd4ef3085; 0x04881d05;
    0xd9d4d039; 0xe6db99e5; 0x1fa27cf8; 0xc4ac5665;
    0xf4292244; 0x432aff97; 0xab9423a7; 0xfc93a039;
    0x655b59c3; 0x8f0ccc92; 0xffeff47d; 0x85845dd1;
    0x6fa87e4f; 0xfe2ce6e0; 0xa3014314; 0x4e0811a1;
    0xf7537e82; 0xbd3af235; 0x2ad7d2bb; 0xeb86d391 ].

Definition bytes_of_string (s : string) : list Z :=
  map (fun c => Z.of_N (N_of_ascii c)) (list_ascii_of_string s).

(** [n] bytes of [w], least significant first. *)
Fixpoint le_bytes (n : nat) (w : Z) : list Z :=
  match n with
  | O => []
  | S n' => Z.land w 0xff :: le_bytes n' (Z.shiftr w 8)
  end.

Fixpoint le_word (bs : list Z) : Z :=
  match bs with
  | [] => 0
  | b :: bs' => Z.lor b (Z.shiftl (le_word bs') 8)
  end.

(** The message, a [0x80] byte, zero bytes up to 56 modulo 64, and the
    length of the message in bits on 64 bits. *)
Definition pad (msg : list Z) : list Z :=
  let len := Z.of_nat (length msg) in
  let zeros := Z.to_nat ((55 - len) mod 64) in
  msg ++ 0x80 :: repeat 0 zeros ++ le_bytes 8 (Z.land (len * 8) 0xffffffffffffffff).

Fixpoint chunks (fuel : nat) (k : nat) (bs : list Z) : list (list Z) :=
  match fuel with
  | O => []
  | S fuel' =>
      match bs with
      | [] => []
      | _ => take k bs :: chunks fuel' k (drop k bs)
      end
  end.

Definition words_of_block (block : list Z) : list Z :=
  map le_word (chunks 16 4 block).

Record regs := Regs { rA : Z; rB : Z; rC : Z; rD : Z }.

Definition round_step (M : list Z) (r : regs) (i : nat) : regs :=
  let '(Regs A B C D) := r in
  let iz := Z.of_nat i in
  let '(F, g) :=
    if iz <? 16 then (Z.lor (Z.land B C) (Z.land (not32 B) D), iz)
    else if iz <? 32 then (Z.lor (Z.land D B) (Z.land (not32 D) C), (5 * iz + 1) mod 16)
    else if iz <? 48 then (Z.lxor (Z.lxor B C) D, (3 * iz + 5) mod 16)
    else (Z.lxor C (Z.lor B (not32 D)), (7 * iz) mod 16) in
  let F' := add32 (add32 (add32 F A) (nth i K_table 0)) (nth (Z.to_nat g) M 0) in
  Regs D (add32 B (rotl32 F' (nth i S_table 0))) B C.

Definition process_block (r : regs) (block : list Z) : regs :=
  let M := words_of_block block in
  let r' := fold_left (round_step M) (seq 0 64) r in
  Regs (add32 (rA r) (rA r')) (add32 (rB r) (rB r'))
       (add32 (rC r) (rC r')) (add32 (rD r) (rD r')).

Definition init : regs := Regs 0x67452301 0xefcdab89 0x98badcfe 0x10325476.

Definition digest (msg : list Z) : list Z :=
  let p := pad msg in
  let r := fold_left process_block (chunks (length p) 64 p) init in
  le_bytes 4 (rA r) ++ le_bytes 4 (rB r) ++ le_bytes 4 (rC r) ++ le_bytes 4 (rD r).

Definition hex_digit (n : Z) : ascii :=
  nth (Z.to_nat n) (list_ascii_of_string "0123456789abcdef") "0"%char.

Fixpoint hex_of_bytes (bs : list Z) : string :=
  match bs with
  | [] => EmptyString
  | b :: bs' =>
      String (hex_digit (Z.shiftr b 4))
        (String (hex_digit (Z.land b 0xf)) (hex_of_bytes bs'))
  end.

(** [hashlib.md5(s.encode()).hexdigest()] *)
Definition hexdigest (s : string) : string :=
  hex_of_bytes (digest (bytes_of_string s)).

End MD5.

(** The test suite of RFC 1321, appendix A.5. *)
Example md5_empty : MD5.hexdigest EmptyString = "d41d8cd98f00b204e9800998ecf8427e"%string.
Proof. vm_compute. reflexivity. Qed.

Example md5_a : MD5.hexdigest "a" = "0cc175b9c0f1b6a831c399e269772661"%string.
Proof. vm_compute. reflexivity. Qed.

Example md5_abc : MD5.hexdigest "abc" = "900150983cd24fb0d6963f7d28e17f72"%string.
Proof. vm_compute. reflexivity. Qed.

Example md5_message_digest :
  MD5.hexdigest "message digest" = "f96b697d7cb7938d525a2f31aaf161d0"%string.
Proof. vm_compute. reflexivity. Qed.

Example md5_two_blocks :
  MD5.hexdigest "12345678901234567890123456789012345678901234567890123456789012345678901234567890"
  = "57edf4a22be3c955ac49da2e2107b67a"%string.
Proof. vm_compute. reflexivity. Qed.

(** ** Python string operations used by the source *)
Module Str.
Local Open Scope string_scope.

(** [sep.join(parts)] *)
Fixpoint join (sep : string) (parts : list string) : string :=
  match parts with
  | [] => EmptyString
  | [x] => x
  | x :: rest => x ++ sep ++ join sep rest
  end.

(** [s.startswith(p)] *)
Fixpoint startswith (p s : string) : bool :=
  match p, s with
  | EmptyString, _ => true
  | String a p', String b s' => Ascii.eqb a b && startswith p' s'
  | String _ _, EmptyString => false
  end.

(** [s.endswith(suf)]: some suffix of [s] is [suf]. *)
Fixpoint endswith (suf s : string) : bool :=
  String.eqb s suf ||
  match s with
  | EmptyString => false
  | String _ s' => endswith suf s'
  end.

(** [p in s] on strings: [p] occurs in [s] as a substring. *)
Fixpoint contains (p s : string) : bool :=
  startswith p s ||
  match s with
  | EmptyString => false
  | String _ s' => contains p s'
  end.

(** [s[:n]] *)
Definition take (n : nat) (s : string) : string := String.substring 0 n s.

(** Truthiness of a [str] and of an [Optional[str]]. *)
Definition truthy (s : string) : bool := negb (String.eqb s EmptyString).

Definition truthy_opt (o : option string) : bool :=
  match o with
  | Some s => truthy s
  | None => false
  end.

(** The character [c] does not occur in [s]. *)
Fixpoint free_of (c : ascii) (s : string) : bool :=
  match s with
  | EmptyString => true
  | String a s' => negb (Ascii.eqb a c) && free_of c s'
  end.
End Str.

(** ** The operating system as the cache manager and the tools see it *)

(** A modification time as [str] prints the float that [os.path.getmtime]
    returns: the digits before and after the point. *)
Record timestamp := Timestamp { ts_int : Decimal.uint; ts_frac : Decimal.uint }.

Definition str_float (t : timestamp) : string :=
  (NilZero.string_of_uint (ts_int t) ++ "." ++ NilZero.string_of_uint (ts_frac t))%string.

(** A file-system entry a tool may depend on. [f_content] is [None] when
    [open(path, 'rb')] raises although the path exists, as for a directory or
    a file without read permission. *)
Record file := File { f_content : option string; f_mtime : timestamp }.

Record os_state := OsState {
  files : gmap string file;   (* path -> entry, absent when the path does not exist *)
  clock : Z                   (* the current time, as file access times record it *)
}.

Definition os_path_exists (os : os_state) (path : string) : bool :=
  bool_decide (is_Some (files os !! path)).

Definition os_path_getmtime (os : os_state) (path : string) : option timestamp :=
  f_mtime <$> files os !! path.

(** What a file below the cache directory holds: a pickled value, or bytes
    that [pickle.load] rejects. *)
Inductive blob :=
  | Pickled (value : string)
  | Garbage.

Record cache_file := CacheFile {
  cf_data : blob;
  cf_atime : Z;    (* st_atime *)
  cf_size : Z      (* st_size *)
}.

(** ** tools/cache_manager.py *)
Module CacheManager.

Record t := Build {
  cache_dir : gmap string cache_file;   (* the entries of the directory [cache_dir], by name *)
  max_size_mb : Z;
  hits : Z;
  misses : Z;
  invalidations : Z;
  _file_hashes : gmap string string
}.

(** [CacheManager(cache_dir, max_size_mb)] on a directory holding [dir]. *)
Definition __init__ (dir : gmap string cache_file) (max_mb : Z) : t :=
  Build dir max_mb 0 0 0 ∅.

Definition _get_file_hash (os : os_state) (file_path : string) : string :=
  match files os !! file_path with
  | None => "nonexistent"
  | Some f =>
      match f_content f with
      | Some content => MD5.hexdigest content
      | None => str_float (f_mtime f)
      end
  end.

(** [if file_deps:] holds for a list that is neither [None] nor empty. *)
Definition deps_list (file_deps : option (list string)) : list string :=
  match file_deps with
  | Some l => l
  | None => []
  end.

Definition key_parts (os : os_state) (base_key : string) (file_deps : option (list string))
  : list string :=
  base_key :: map (fun file_path => (file_path ++ ":" ++ _get_file_hash os file_path)%string)
                  (deps_list file_deps).

Definition _build_cache_key (os : os_state) (base_key : string)
    (file_deps : option (list string)) : string :=
  MD5.hexdigest (Str.join "|" (key_parts os base_key file_deps)).

(** The name of the entry below [cache_dir]. *)
Definition _get_cache_path (cache_key : string) : string :=
  (cache_key ++ ".cache")%string.

(** [self.cache_dir.glob("*.cache")], in the order the directory lists. *)
Definition glob_cache (dir : gmap string cache_file) : list (string * cache_file) :=
  filter (fun e => Is_true (Str.endswith ".cache" e.1)) (map_to_list dir).

Definition unlink (name : string) (dir : gmap string cache_file) : gmap string cache_file :=
  delete name dir.

Definition total_size (entries : list (string * cache_file)) : Z :=
  foldr (fun e acc => cf_size e.2 + acc) 0 entries.

(** [cache_files.sort(key=lambda x: x[1])]: stable, oldest access first. *)
Fixpoint insert_by_atime (e : string * cache_file) (l : list (string * cache_file))
  : list (string * cache_file) :=
  match l with
  | [] => [e]
  | e' :: l' =>
      if cf_atime e'.2 <? cf_atime e.2 then e' :: insert_by_atime e l'
      else e :: l
  end.

Definition sort_by_atime (l : list (string * cache_file)) : list (string * cache_file) :=
  foldr insert_by_atime [] l.

(** The eviction loop: unlink, subtract, stop once within the limit. *)
Fixpoint evict (entries : list (string * cache_file)) (total limit : Z)
    (dir : gmap string cache_file) : gmap string cache_file :=
  match entries with
  | [] => dir
  | e :: rest =>
      let dir' := unlink e.1 dir in
      let total' := total - cf_size e.2 in
      if total' <=? limit then dir' else evict rest total' limit dir'
  end.

Definition _cleanup_old_entries (cm : t) : t :=
  let cache_files := glob_cache (cache_dir cm) in
  let total := total_size cache_files in
  let max_size_bytes := max_size_mb cm * 1024 * 1024 in
  if max_size_bytes <? total then
    Build (evict (sort_by_atime cache_files) total max_size_bytes (cache_dir cm))
          (max_size_mb cm) (hits cm) (misses cm) (invalidations cm) (_file_hashes cm)
  else cm.

Definition add_hit (cm : t) (dir : gmap string cache_file) : t :=
  Build dir (max_size_mb cm) (hits cm + 1) (misses cm) (invalidations cm) (_file_hashes cm).

Definition add_miss (cm : t) : t :=
  Build (cache_dir cm) (max_size_mb cm) (hits cm) (misses cm + 1) (invalidations cm)
        (_file_hashes cm).

(** [cache_path.touch()] *)
Definition touch (os : os_state) (f : cache_file) : cache_file :=
  CacheFile (cf_data f) (clock os) (cf_size f).

(** [get]: the value, or [None], and the manager afterwards. A blob that
    does not unpickle raises inside the [try] and counts as a miss. *)
Definition get (os : os_state) (cm : t) (cache_key : string)
    (file_deps : option (list string)) : option string * t :=
  let full_key := _build_cache_key os cache_key file_deps in
  let cache_path := _get_cache_path full_key in
  match cache_dir cm !! cache_path with
  | None => (None, add_miss cm)
  | Some f =>
      match cf_data f with
      | Pickled cached_data =>
          (Some cached_data, add_hit cm (<[cache_path := touch os f]> (cache_dir cm)))
      | Garbage => (None, add_miss cm)
      end
  end.

Section Pickle.
(** The number of bytes [pickle.dump] writes for a value. *)
Variable pickle_size : string -> Z.

(** [open(cache_path, 'wb')] and [pickle.dump]: a new file is accessed
    now, a truncated one keeps its access time. *)
Definition write_blob (os : os_state) (dir : gmap string cache_file)
    (cache_path value : string) : gmap string cache_file :=
  let atime := match dir !! cache_path with
               | Some old => cf_atime old
               | None => clock os
               end in
  <[cache_path := CacheFile (Pickled value) atime (pickle_size value)]> dir.

Definition record_hashes (os : os_state) (file_deps : option (list string))
    (hashes : gmap string string) : gmap string string :=
  fold_left (fun m file_path => <[file_path := _get_file_hash os file_path]> m)
            (deps_list file_deps) hashes.

Definition set (os : os_state) (cm : t) (cache_key value : string)
    (file_deps : option (list string)) : t :=
  let full_key := _build_cache_key os cache_key file_deps in
  let cache_path := _get_cache_path full_key in
  let dir := write_blob os (cache_dir cm) cache_path value in
  let hashes := record_hashes os file_deps (_file_hashes cm) in
  _cleanup_old_entries
    (Build dir (max_size_mb cm) (hits cm) (misses cm) (invalidations cm) hashes).
End Pickle.

Definition invalidate_file (os : os_state) (cm : t) (file_path : string) : Z * t :=
  let current_hash := _get_file_hash os file_path in
  let old_hash := _file_hashes cm !! file_path in
  if Str.truthy_opt old_hash && negb (bool_decide (old_hash = Some current_hash)) then
    let pattern := Str.take 8 (MD5.hexdigest file_path) in
    let victims := filter (fun e => Is_true (Str.contains pattern e.1))
                          (glob_cache (cache_dir cm)) in
    let invalidated := Z.of_nat (length victims) in
    (invalidated,
     Build (foldr (fun e dir => unlink e.1 dir) (cache_dir cm) victims)
           (max_size_mb cm) (hits cm) (misses cm) (invalidations cm + invalidated)
           (<[file_path := current_hash]> (_file_hashes cm)))
  else (0, cm).

Definition clear (cm : t) : Z * t :=
  let cache_files := glob_cache (cache_dir cm) in
  (Z.of_nat (length cache_files),
   Build (foldr (fun e dir => unlink e.1 dir) (cache_dir cm) cache_files)
         (max_size_mb cm) (hits cm) (misses cm) (invalidations cm) ∅).

(** The integer fields of [get_stats]; [hit_rate] and [cache_size_mb] are
    floats computed from [hits], [misses] and the size in bytes. *)
Record stats := Stats {
  st_hits : Z;
  st_misses : Z;
  st_invalidations : Z;
  st_cache_size : Z;
  st_entry_count : Z;
  st_max_size_mb : Z
}.

Definition get_stats (cm : t) : stats :=
  let cache_files := glob_cache (cache_dir cm) in
  Stats (hits cm) (misses cm) (invalidations cm) (total_size cache_files)
        (Z.of_nat (length cache_files)) (max_size_mb cm).

End CacheManager.

(** ** tools/base_tool.py *)

Module ToolMetadata.
Record t := Build {
  name : string;
  description : string;
  category : string;
  context_modes : list string;
  requires_git : bool;
  requires_filesystem : bool;
  is_destructive : bool;
  performance_cost : string
}.
End ToolMetadata.

(** Keyword arguments, as the tools of the repository read them. *)
Abbreviation kwargs := (gmap string string).

(** [ToolError(message, tool_name, details)], or any other exception of
    class [Exception] with the text [str] gives for it. What [except
    Exception] does not catch ([SystemExit], [KeyboardInterrupt]) is outside
    the model. *)
Inductive exn :=
  | ToolError (message tool_name : string) (details : gmap string string)
  | OtherError (text : string).

Definition str_exn (e : exn) : string :=
  match e with
  | ToolError message tool_name _ => (tool_name ++ ": " ++ message)%string
  | OtherError text => text
  end.

Inductive result (A : Type) :=
  | Ok (a : A)
  | Raise (e : exn).
Arguments Ok {A} a.
Arguments Raise {A} e.

(** A subclass of [Tool]: its methods, each taking [self.project_root].
    [validate_params], [get_cache_key] and [get_file_dependencies] read the
    file system; the hooks and [apply] may change it, and what they changed
    stays changed when they raise. *)
Record ToolClass := {
  __name__ : string;
  cls_metadata : ToolMetadata.t;
  validate_params : string -> os_state -> kwargs -> result kwargs;
  apply : string -> os_state -> kwargs -> result string * os_state;
  get_cache_key : string -> os_state -> kwargs -> result (option string);
  get_file_dependencies : string -> os_state -> kwargs -> result (option (list string));
  pre_execute_hook : string -> os_state -> kwargs -> result unit * os_state;
  post_execute_hook : string -> os_state -> string -> kwargs -> result unit * os_state
}.

Module Tool.
(** An instance: its class and the attribute [__init__] sets. *)
Record t := Build { tool_class : ToolClass; project_root : string }.

Definition default_project_root : string := "/Users/diegowahl/mcp-server".

(** [tool_class()] *)
Definition new (tool_class : ToolClass) : t := Build tool_class default_project_root.

Definition metadata (self : t) : ToolMetadata.t := cls_metadata (tool_class self).

(** The defaults a subclass inherits. *)
Definition default_validate_params (_ : string) (_ : os_state) (kw : kwargs)
  : result kwargs := Ok kw.

Definition default_get_cache_key (_ : string) (_ : os_state) (_ : kwargs)
  : result (option string) := Ok None.

Definition default_get_file_dependencies (_ : string) (_ : os_state) (_ : kwargs)
  : result (option (list string)) := Ok None.

Definition default_pre_execute_hook (_ : string) (os : os_state) (_ : kwargs)
  : result unit * os_state := (Ok tt, os).

Definition default_post_execute_hook (_ : string) (os : os_state) (_ : string) (_ : kwargs)
  : result unit * os_state := (Ok tt, os).

(** [context in self.metadata.context_modes] *)
Definition in_context_modes (self : t) (context : string) : bool :=
  existsb (String.eqb context) (ToolMetadata.context_modes (metadata self)).

(** [can_execute]; no tool of the repository overrides it. *)
Definition can_execute (self : t) (context : option string) : bool :=
  if Str.truthy_opt context && negb (in_context_modes self (default EmptyString context))
  then false
  else true.
End Tool.

(** ** What one call of [execute_tool] runs in *)

(** The methods [execute_tool] invokes around real execution, by the name of
    the tool they were invoked for. *)
Inductive call :=
  | CallPreExecuteHook (tool_name : string)
  | CallApply (tool_name : string)
  | CallPostExecuteHook (tool_name : string).

Record world := World {
  w_os : os_state;
  w_cache : option CacheManager.t;   (* the global [cache_manager]; [None] when its import raises [ImportError] *)
  w_calls : list call                (* the hook and [apply] invocations so far, oldest first *)
}.

(** Computations that read and change the world and may raise. *)
Definition M (A : Type) : Type := world -> result A * world.

Definition ret {A} (a : A) : M A := fun w => (Ok a, w).

Definition raise {A} (e : exn) : M A := fun w => (Raise e, w).

Definition bind {A B} (m : M A) (k : A -> M B) : M B :=
  fun w =>
    match m w with
    | (Ok a, w') => k a w'
    | (Raise e, w') => (Raise e, w')
    end.

#[global] Instance M_ret : MRet M := @ret.
#[global] Instance M_bind : MBind M := fun A B k m => bind m k.

(** A method that reads the file system. *)
Definition reading {A} (f : os_state -> result A) : M A :=
  fun w => (f (w_os w), w).

(** A method that may change the file system, logged as [c]. *)
Definition calling {A} (c : call) (f : os_state -> result A * os_state) : M A :=
  fun w =>
    let '(r, os') := f (w_os w) in
    (r, World os' (w_cache w) (w_calls w ++ [c])).

Definition get_cache : M (option CacheManager.t) := fun w => (Ok (w_cache w), w).

(** [except Exception as e]: a [ToolError] is raised again, anything else is
    wrapped. *)
Definition wrap_errors {A} (name : string) (m : M A) : M A :=
  fun w =>
    match m w with
    | (Raise (OtherError text), w') =>
        (Raise (ToolError ("Execution failed: " ++ text) name {[ "original_error"%string := text ]}),
         w')
    | other => other
    end.

Module ToolRegistry.

Record t := Build {
  _tools : gmap string ToolClass;
  _instances : gmap string Tool.t;
  _contexts : gmap string (list string)
}.

Definition __init__ : t :=
  Build ∅ ∅
    (<["exploration"%string := []]> (<["debugging"%string := []]>
      (<["refactoring"%string := []]> (<["general"%string := []]> ∅)))).

Definition add_to_context (name : string) (contexts : gmap string (list string))
    (context : string) : gmap string (list string) :=
  match contexts !! context with
  | Some names => <[context := names ++ [name]]> contexts
  | None => <[context := [name]]> contexts
  end.

Definition register_tool (self : t) (tool_class : ToolClass) : t :=
  let temp_instance := Tool.new tool_class in
  let metadata := Tool.metadata temp_instance in
  let name := ToolMetadata.name metadata in
  Build (<[name := tool_class]> (_tools self))
        (_instances self)
        (fold_left (add_to_context name) (ToolMetadata.context_modes metadata)
                   (_contexts self)).

Definition get_tool (self : t) (name : string) : option Tool.t * t :=
  match _instances self !! name with
  | Some instance => (Some instance, self)
  | None =>
      match _tools self !! name with
      | Some tool_class =>
          let instance := Tool.new tool_class in
          (Some instance,
           Build (_tools self) (<[name := instance]> (_instances self)) (_contexts self))
      | None => (None, self)
      end
  end.

(** [f"...'{context}'"] *)
Definition str_context (context : option string) : string :=
  default "None"%string context.

Section Execute.
Variable pickle_size : string -> Z.

(** [cache_manager.get(cache_key, file_deps)] *)
Definition cache_manager_get (cm : CacheManager.t) (cache_key : string)
    (file_deps : option (list string)) : M (option string) :=
  fun w =>
    let '(cached_result, cm') := CacheManager.get (w_os w) cm cache_key file_deps in
    (Ok cached_result, World (w_os w) (Some cm') (w_calls w)).

(** [cache_manager.set(cache_key, result, file_deps)] *)
Definition cache_manager_set (cm : CacheManager.t) (cache_key result : string)
    (file_deps : option (list string)) : M unit :=
  fun w =>
    (Ok tt,
     World (w_os w)
       (Some (CacheManager.set pickle_size (w_os w) cm cache_key result file_deps))
       (w_calls w)).

(** The cache lookup of [execute_tool]: the cached result on a hit. When
    the cache manager cannot be imported, execution goes on without it. *)
Definition check_cache (tool : Tool.t) (cache_key : option string)
    (validated_params : kwargs) : M (option string) :=
  if Str.truthy_opt cache_key then
    file_deps ← reading (fun os =>
      get_file_dependencies (Tool.tool_class tool) (Tool.project_root tool) os
        validated_params);
    cache ← get_cache;
    match cache with
    | Some cache_manager =>
        cache_manager_get cache_manager (default EmptyString cache_key) file_deps
    | None => mret None
    end
  else mret None.

Definition store_result (tool : Tool.t) (cache_key : option string)
    (validated_params : kwargs) (result : string) : M unit :=
  if Str.truthy_opt cache_key then
    cache ← get_cache;
    match cache with
    | Some cache_manager =>
        file_deps ← reading (fun os =>
          get_file_dependencies (Tool.tool_class tool) (Tool.project_root tool) os
            validated_params);
        cache_manager_set cache_manager (default EmptyString cache_key) result file_deps
    | None => mret tt
    end
  else mret tt.

(** The body of the [try] statement. *)
Definition execute_body (tool : Tool.t) (name : string) (kw : kwargs) : M string :=
  let cls := Tool.tool_class tool in
  let root := Tool.project_root tool in
  validated_params ← reading (fun os => validate_params cls root os kw);
  cache_key ← reading (fun os => get_cache_key cls root os validated_params);
  cached_result ← check_cache tool cache_key validated_params;
  match cached_result with
  | Some hit => mret hit
  | None =>
      calling (CallPreExecuteHook name)
        (fun os => pre_execute_hook cls root os validated_params);;
      result ← calling (CallApply name) (fun os => apply cls root os validated_params);
      calling (CallPostExecuteHook name)
        (fun os => post_execute_hook cls root os result validated_params);;
      store_result tool cache_key validated_params result;;
      mret result
  end.

Definition execute_tool (self : t) (name : string) (context : option string)
    (kw : kwargs) (w : world) : result string * t * world :=
  let '(found, self') := get_tool self name in
  match found with
  | None =>
      (Raise (ToolError ("Tool '" ++ name ++ "' not found") name ∅), self', w)
  | Some tool =>
      if negb (Tool.can_execute tool context) then
        (Raise (ToolError ("Tool '" ++ name ++ "' cannot execute in context '"
                           ++ str_context context ++ "'") name ∅), self', w)
      else
        let '(r, w') := wrap_errors name (execute_body tool name kw) w in
        (r, self', w')
  end.
End Execute.

End ToolRegistry.

(** ** posixpath *)
Module os_path.
Local Open Scope string_scope.

Definition isabs (s : string) : bool := Str.startswith "/" s.

(** [os.path.join(a, b)] *)
Definition join (a b : string) : string :=
  if Str.startswith "/" b then b
  else if negb (Str.truthy a) || Str.endswith "/" a then a ++ b
  else a ++ "/" ++ b.
End os_path.

(** ** The cache keys of tools/file_tools.py and tools/ast_tools.py *)

Module ReadFileTool.
Local Open Scope string_scope.

Definition metadata : ToolMetadata.t :=
  ToolMetadata.Build "read_file" "Read the contents of a file" "file_operations"
    ["general"; "exploration"; "debugging"; "refactoring"] false true false "low".

Definition validate_params (project_root : string) (_ : os_state) (kw : kwargs)
  : result kwargs :=
  let file_path := kw !! "file_path" in
  if negb (Str.truthy_opt file_path) then
    Raise (ToolError "file_path parameter is required" (ToolMetadata.name metadata) ∅)
  else
    let file_path := default EmptyString file_path in
    let file_path :=
      if negb (os_path.isabs file_path) then os_path.join project_root file_path
      else file_path in
    Ok {[ "file_path" := file_path ]}.

(** "Cache based on file path and modification time" *)
Definition get_cache_key (_ : string) (os : os_state) (kw : kwargs)
  : result (option string) :=
  let file_path := default EmptyString (kw !! "file_path") in
  match os_path_getmtime os file_path with
  | Some mtime => Ok (Some ("read_file:" ++ file_path ++ ":" ++ str_float mtime))
  | None => Ok (Some ("read_file:" ++ file_path ++ ":0"))
  end.

Definition get_file_dependencies (_ : string) (_ : os_state) (kw : kwargs)
  : result (option (list string)) :=
  let file_path := default EmptyString (kw !! "file_path") in
  if Str.truthy file_path then Ok (Some [file_path]) else Ok None.
End ReadFileTool.

Module ListDirectoryTool.
Local Open Scope string_scope.

(** "Cache based on directory path and modification time" *)
Definition get_cache_key (_ : string) (os : os_state) (kw : kwargs)
  : result (option string) :=
  let directory_path := default "." (kw !! "directory_path") in
  match os_path_getmtime os directory_path with
  | Some mtime => Ok (Some ("list_directory:" ++ directory_path ++ ":" ++ str_float mtime))
  | None => Ok (Some ("list_directory:" ++ directory_path ++ ":0"))
  end.
End ListDirectoryTool.

Module FindFilesTool.
(** "For now, let's not cache this one" *)
Definition get_cache_key (_ : string) (_ : os_state) (_ : kwargs)
  : result (option string) := Ok None.
End FindFilesTool.

Module AnalyzeFileStructureTool.
Local Open Scope string_scope.

(** "Cache based on file path - content hash will be handled by cache manager" *)
Definition get_cache_key (_ : string) (_ : os_state) (kw : kwargs)
  : result (option string) :=
  let file_path := default EmptyString (kw !! "file_path") in
  Ok (Some ("analyze_file_structure:" ++ file_path)).
End AnalyzeFileStructureTool.

Module GetProjectOverviewTool.
Local Open Scope string_scope.

Definition get_cache_key (self_project_root : string) (_ : os_state) (kw : kwargs)
  : result (option string) :=
  let project_root := default self_project_root (kw !! "project_root") in
  Ok (Some ("get_project_overview:" ++ project_root)).
End GetProjectOverviewTool.

Module FindFunctionUsagesTool.
Local Open Scope string_scope.

Definition get_cache_key (self_project_root : string) (_ : os_state) (kw : kwargs)
  : result (option string) :=
  let function_name := default EmptyString (kw !! "function_name") in
  let project_root := default self_project_root (kw !! "project_root") in
  Ok (Some ("find_function_usages:" ++ function_name ++ ":" ++ project_root)).
End FindFunctionUsagesTool.

Module GetFunctionSignatureTool.
Local Open Scope string_scope.

Definition get_cache_key (self_project_root : string) (_ : os_state) (kw : kwargs)
  : result (option string) :=
  let function_name := default EmptyString (kw !! "function_name") in
  let project_root := default self_project_root (kw !! "project_root") in
  Ok (Some ("get_function_signature:" ++ function_name ++ ":" ++ project_root)).
End GetFunctionSignatureTool.




(** ** Concrete data for the examples *)
Module Demo.
Import CacheManager.

(** A size for pickled strings: a fixed header and the text. *)
Definition pickle_size (value : string) : Z := 15 + Z.of_nat (String.length value).

Definition t0 : timestamp := Timestamp (Decimal.D1 (Decimal.D7 Decimal.Nil)) (Decimal.D5 Decimal.Nil).
Definition t1 : timestamp := Timestamp (Decimal.D1 (Decimal.D8 Decimal.Nil)) (Decimal.D0 Decimal.Nil).

(** [a.txt] holding [hello], then [world]. *)
Definition os_hello : os_state := OsState {[ "a.txt"%string := File (Some "hello"%string) t0 ]} 100.
Definition os_world : os_state := OsState {[ "a.txt"%string := File (Some "world"%string) t1 ]} 200.

Definition deps : option (list string) := Some ["a.txt"%string].

(** A fresh manager on an empty directory. *)
Definition fresh : t := __init__ ∅ 100.

Definition after_hello : t := set pickle_size os_hello fresh "k" "v1" deps.

(** Stored for [world] first, then for [hello]. *)
Definition after_world_hello : t :=
  set pickle_size os_hello (set pickle_size os_world fresh "k" "v0" deps) "k" "v1" deps.

(** Two dependencies, neither of which exists, in both orders. *)
Definition os_empty : os_state := OsState ∅ 300.

(** Two dependencies, one of whose paths contains a bar, in both orders. *)
Definition deps_bar_first : option (list string) :=
  Some ["p:nonexistent|p"%string; "p"%string].
Definition deps_bar_last : option (list string) :=
  Some ["p"%string; "p:nonexistent|p"%string].
Definition after_bar_first : t := set pickle_size os_empty fresh "k" "v" deps_bar_first.

(** [/repo/notes.txt] at two modification times, and absent. *)
Definition os_notes (mtime : timestamp) : os_state :=
  OsState {[ "/repo/notes.txt"%string := File (Some "hello"%string) mtime ]} 100.

End Demo.

(** The registries that calls of [register_tool], [get_tool] and
    [execute_tool] build from the empty one. *)
Inductive reachable (pickle_size : string -> Z) : ToolRegistry.t -> Prop :=
  | reachable_init : reachable pickle_size ToolRegistry.__init__
  | reachable_register_tool r tool_class :
      reachable pickle_size r ->
      reachable pickle_size (ToolRegistry.register_tool r tool_class)
  | reachable_get_tool r name :
      reachable pickle_size r ->
      reachable pickle_size (ToolRegistry.get_tool r name).2
  | reachable_execute_tool r name context kw w :
      reachable pickle_size r ->
      reachable pickle_size (ToolRegistry.execute_tool pickle_size r name context kw w).1.2.

(** The registries that later calls of [register_tool], [get_tool] and
    [execute_tool] lead to from [r]. *)
Inductive later (pickle_size : string -> Z) (r : ToolRegistry.t) : ToolRegistry.t -> Prop :=
  | later_now : later pickle_size r r
  | later_register_tool r' tool_class :
      later pickle_size r r' ->
      later pickle_size r (ToolRegistry.register_tool r' tool_class)
  | later_get_tool r' name :
      later pickle_size r r' ->
      later pickle_size r (ToolRegistry.get_tool r' name).2
  | later_execute_tool r' name context kw w :
      later pickle_size r r' ->
      later pickle_size r (ToolRegistry.execute_tool pickle_size r' name context kw w).1.2.

Module DemoTool.
Local Open Scope string_scope.

(** A tool named [demo] whose cache key is a fixed string and whose only
    dependency is [a.txt]. *)
Definition cls (class_name : string) (context_modes : list string) (output : string)
  : ToolClass :=
  {| __name__ := class_name;
     cls_metadata :=
       ToolMetadata.Build "demo" "A tool for the examples" "examples" context_modes
         false false false "low";
     validate_params := Tool.default_validate_params;
     apply := fun _ os _ => (Ok output, os);
     get_cache_key := fun _ _ _ => Ok (Some "fixed-key");
     get_file_dependencies := fun _ _ _ => Ok (Some ["a.txt"]);
     pre_execute_hook := Tool.default_pre_execute_hook;
     post_execute_hook := Tool.default_post_execute_hook |}.

Definition First : ToolClass := cls "First" ["debugging"] "first result".
Definition Second : ToolClass := cls "Second" ["debugging"] "second result".

Definition registry : ToolRegistry.t :=
  ToolRegistry.register_tool ToolRegistry.__init__ First.

(** [First] registered and looked up, then [Second] registered under the
    same name. *)
Definition reregistered : ToolRegistry.t :=
  ToolRegistry.register_tool (ToolRegistry.get_tool registry "demo").2 Second.

Definition world0 : world := World Demo.os_hello (Some Demo.fresh) [].

(** The registry and the world after one execution in context [debugging]. *)
Definition registry1 : ToolRegistry.t :=
  (ToolRegistry.execute_tool Demo.pickle_size registry "demo" (Some "debugging") ∅ world0).1.2.

(** The cache manager after that execution: one miss, then the store. *)
Definition cache1 : CacheManager.t :=
  CacheManager.set Demo.pickle_size Demo.os_hello (CacheManager.add_miss Demo.fresh)
    "fixed-key" "first result" Demo.deps.

Definition world1 : world :=
  (ToolRegistry.execute_tool Demo.pickle_size registry "demo" (Some "debugging") ∅ world0).2.
End DemoTool.

(** A run of cache operations, each with the file system it finds. *)
Inductive cache_op :=
  | OpGet (os : os_state) (cache_key : string) (file_deps : option (list string))
  | OpSet (os : os_state) (cache_key value : string) (file_deps : option (list string))
  | OpInvalidateFile (os : os_state) (file_path : string)
  | OpClear.

Definition cache_step (pickle_size : string -> Z) (cm : CacheManager.t) (op : cache_op)
  : CacheManager.t :=
  match op with
  | OpGet os cache_key file_deps => (CacheManager.get os cm cache_key file_deps).2
  | OpSet os cache_key value file_deps =>
      CacheManager.set pickle_size os cm cache_key value file_deps
  | OpInvalidateFile os file_path => (CacheManager.invalidate_file os cm file_path).2
  | OpClear => (CacheManager.clear cm).2
  end.

Definition cache_run (pickle_size : string -> Z) (ops : list cache_op) (cm : CacheManager.t)
  : CacheManager.t :=
  fold_left (cache_step pickle_size) ops cm.

Definition is_get (op : cache_op) : bool :=
  match op with
  | OpGet _ _ _ => true
  | _ => false
  end.

Definition count_gets (ops : list cache_op) : Z :=
  Z.of_nat (length (List.filter is_get ops)).

(** ** Auxiliary notions for the statements *)

(** [t] is empty or starts with the character [c]. *)
Definition starts_with_or_empty (c : ascii) (t : string) : Prop :=
  t = EmptyString \/ exists t', t = String c t'.

(** The separator [_build_cache_key] joins with. *)
Definition bar : ascii := "|"%char.

(** What [join] puts after the first part. *)
Fixpoint joined_tail (sep : string) (parts : list string) : string :=
  match parts with
  | [] => EmptyString
  | x :: rest => (sep ++ x ++ joined_tail sep rest)%string
  end.

(** The part of the key a dependency contributes. *)
Definition fragment (os : os_state) (file_path : string) : string :=
  (file_path ++ ":" ++ CacheManager._get_file_hash os file_path)%string.

(** The directory after [unlink] of every entry of [l]. *)
Definition unlink_all (l : list (string * cache_file)) (dir : gmap string cache_file)
  : gmap string cache_file :=
  foldr (fun e d => CacheManager.unlink e.1 d) dir l.

(** Every memoized instance belongs to a registered name. *)
Definition instances_registered (r : ToolRegistry.t) : Prop :=
  forall name, is_Some (ToolRegistry._instances r !! name) ->
               is_Some (ToolRegistry._tools r !! name).

(** ** Further notions for the statements *)

(** [c] is one of the digits [hexdigest] prints. *)
Definition is_hex (c : ascii) : bool :=
  existsb (fun h => Ascii.eqb h c) (list_ascii_of_string "0123456789abcdef").

(** The fragment of a name that [invalidate_file] looks for. *)
Definition invalidation_pattern (file_path : string) : string :=
  Str.take 8 (MD5.hexdigest file_path).

(** [path] is absent from both file systems, or readable in both with the
    same content (whatever the modification times). *)
Definition same_readable_content (os os' : os_state) (path : string) : Prop :=
  match files os !! path, files os' !! path with
  | None, None => True
  | Some f, Some f' => is_Some (f_content f) /\ f_content f = f_content f'
  | _, _ => False
  end.

(** [a] was accessed no later than [b]. *)
Definition atime_le (a b : string * cache_file) : Prop := cf_atime a.2 <= cf_atime b.2.

(** The invocations one real execution of the tool [name] logs, in order. *)
Definition execution_calls (name : string) : list call :=
  [CallPreExecuteHook name; CallApply name; CallPostExecuteHook name].

(** ** The decorator of tools/cache_manager.py *)


(** ** Validation and dependencies of [analyze_file_structure] (tools/ast_tools.py) *)
Module AnalyzeFileStructureParams.
Local Open Scope string_scope.

(** [self.metadata.name] *)
Definition name : string := "analyze_file_structure".

(** [AnalyzeFileStructureTool.validate_params] *)
Definition validate_params (project_root : string) (os : os_state) (kw : kwargs)
: result kwargs :=
let file_path := kw !! "file_path" in
if negb (Str.truthy_opt file_path) then
  Raise (ToolError "file_path parameter is required" name ∅)
else
  let file_path := default EmptyString file_path in
  let file_path :=
    if negb (os_path.isabs file_path) then os_path.join project_root file_path
    else file_path in
  if negb (os_path_exists os file_path) then
    Raise (ToolError ("File not found: " ++ file_path) name ∅)
  else Ok {[ "file_path" := file_path ]}.

(** [AnalyzeFileStructureTool.get_file_dependencies] *)
Definition get_file_dependencies (_ : string) (os : os_state) (kw : kwargs)
: result (option (list string)) :=
let file_path := default EmptyString (kw !! "file_path") in
if Str.truthy file_path && os_path_exists os file_path then Ok (Some [file_path])
else Ok None.
End AnalyzeFileStructureParams.

(** ** Further data for the examples *)
Module Demo2.
Local Open Scope string_scope.

(** Two entries of one mebibyte each under a limit of one mebibyte;
  [a.cache] was accessed first. *)
Definition crowded : CacheManager.t :=
CacheManager.Build
  (<["a.cache" := CacheFile (Pickled "x") 5 1048576]>
     (<["b.cache" := CacheFile (Pickled "y") 9 1048576]> ∅))
  1 0 0 0 ∅.

(** A tool named [plain] that keeps the defaults of the base class. *)
Definition Plain : ToolClass :=
{| __name__ := "Plain";
   cls_metadata :=
     ToolMetadata.Build "plain" "A tool without a cache key" "examples" ["general"]
       false false false "low";
   validate_params := Tool.default_validate_params;
   apply := fun _ os _ => (Ok "plain result", os);
   get_cache_key := Tool.default_get_cache_key;
   get_file_dependencies := Tool.default_get_file_dependencies;
   pre_execute_hook := Tool.default_pre_execute_hook;
   post_execute_hook := Tool.default_post_execute_hook |}.

(** A tool named [strict] that validates as [read_file] does. *)
Definition Strict : ToolClass :=
{| __name__ := "Strict";
   cls_metadata :=
     ToolMetadata.Build "strict" "A tool that requires file_path" "examples" ["general"]
       false false false "low";
   validate_params := ReadFileTool.validate_params;
   apply := fun _ os _ => (Ok "strict result", os);
   get_cache_key := Tool.default_get_cache_key;
   get_file_dependencies := Tool.default_get_file_dependencies;
   pre_execute_hook := Tool.default_pre_execute_hook;
   post_execute_hook := Tool.default_post_execute_hook |}.

Definition registry : ToolRegistry.t :=
ToolRegistry.register_tool (ToolRegistry.register_tool ToolRegistry.__init__ Plain) Strict.



(** A world whose cache manager cannot be imported. *)
Definition world_without_cache : world := World Demo.os_hello None [].

(** A tool named [failing] with a cache key whose [apply] raises a
  [ValueError]. *)
Definition Failing : ToolClass :=
{| __name__ := "Failing";
   cls_metadata :=
     ToolMetadata.Build "failing" "A tool whose apply raises" "examples" ["general"]
       false false false "low";
   validate_params := Tool.default_validate_params;
   apply := fun _ os _ => (Raise (OtherError "bad value"), os);
   get_cache_key := fun _ _ _ => Ok (Some "failing-key");
   get_file_dependencies := Tool.default_get_file_dependencies;
   pre_execute_hook := Tool.default_pre_execute_hook;
   post_execute_hook := Tool.default_post_execute_hook |}.

Definition failing_registry : ToolRegistry.t :=
ToolRegistry.register_tool ToolRegistry.__init__ Failing.
End Demo2.

(** * Properties *)

Section StringFacts.
Local Open Scope string_scope.

Lemma append_cons x (a b : string) : String x a ++ b = String x (a ++ b).
Proof. reflexivity. Qed.

Lemma append_nil (b : string) : EmptyString ++ b = b.
Proof. reflexivity. Qed.

Lemma append_assoc (a b c : string) : (a ++ b) ++ c = a ++ (b ++ c).
Proof.
  induction a as [|x a IH]; [reflexivity |].
  rewrite !append_cons. by rewrite IH.
Qed.

Lemma length_append (a b : string) :
  String.length (a ++ b) = (String.length a + String.length b)%nat.
Proof.
  induction a as [|x a IH]; [reflexivity |].
  rewrite append_cons. simpl. by rewrite IH.
Qed.

Lemma append_inv_tail (s t a : string) : s ++ a = t ++ a -> s = t.
Proof.
  revert t. induction s as [|x s IH]; intros [|y t] H.
  - reflexivity.
  - apply (f_equal String.length) in H.
    rewrite append_nil, append_cons in H. simpl in H. rewrite length_append in H. lia.
  - apply (f_equal String.length) in H.
    rewrite append_nil, append_cons in H. simpl in H. rewrite length_append in H. lia.
  - rewrite !append_cons in H. injection H as -> H. f_equal. by apply IH.
Qed.

Lemma free_of_append c (a b : string) :
  Str.free_of c (a ++ b) = Str.free_of c a && Str.free_of c b.
Proof.
  induction a as [|x a IH]; [reflexivity |].
  rewrite append_cons. simpl. by rewrite IH, andb_assoc.
Qed.


Lemma append_empty_r (a : string) : a ++ EmptyString = a.
Proof. induction a as [|x a IH]; [reflexivity |]. rewrite append_cons. by rewrite IH. Qed.

Lemma separated_word_inj c (a b t1 t2 : string) :
  Str.free_of c a = true -> Str.free_of c b = true ->
  starts_with_or_empty c t1 -> starts_with_or_empty c t2 ->
  a ++ t1 = b ++ t2 -> a = b /\ t1 = t2.
Proof.
  revert b. induction a as [|x a IH]; intros [|y b] Ha Hb H1 H2 H.
  - by split.
  - rewrite append_nil, append_cons in H. simpl in Hb.
    destruct H1 as [-> | [t' ->]]; [discriminate |].
    injection H as <- _. rewrite Ascii.eqb_refl in Hb. discriminate.
  - rewrite append_nil, append_cons in H. simpl in Ha.
    destruct H2 as [-> | [t' ->]]; [discriminate |].
    injection H as -> _. rewrite Ascii.eqb_refl in Ha. discriminate.
  - rewrite !append_cons in H. injection H as -> H. simpl in Ha, Hb.
    apply andb_prop in Ha as [_ Ha]. apply andb_prop in Hb as [_ Hb].
    destruct (IH b Ha Hb H1 H2 H) as [-> ->]. by split.
Qed.
End StringFacts.

Section HashText.
Local Open Scope string_scope.
Import CacheManager.



Lemma hex_digit_not_bar n : Ascii.eqb (MD5.hex_digit n) bar = false.
Proof.
  unfold MD5.hex_digit. generalize (Z.to_nat n). intros k.
  do 16 (destruct k as [|k]; [reflexivity |]). by destruct k.
Qed.

Lemma hex_of_bytes_free bs : Str.free_of bar (MD5.hex_of_bytes bs) = true.
Proof.
  induction bs as [|b bs IH]; [reflexivity |].
  simpl. by rewrite !hex_digit_not_bar, IH.
Qed.

Lemma string_of_uint_free d : Str.free_of bar (NilEmpty.string_of_uint d) = true.
Proof. induction d; simpl; auto. Qed.

Lemma string_of_uint0_free d : Str.free_of bar (NilZero.string_of_uint d) = true.
Proof. destruct d; try reflexivity; apply (string_of_uint_free (_ d)). Qed.

Lemma str_float_free t : Str.free_of bar (str_float t) = true.
Proof.
  unfold str_float. rewrite !free_of_append, !string_of_uint0_free. reflexivity.
Qed.

Lemma _get_file_hash_free os p : Str.free_of bar (_get_file_hash os p) = true.
Proof.
  unfold _get_file_hash. destruct (files os !! p) as [[[c|] mt]|]; cbn [f_content f_mtime].
  - apply hex_of_bytes_free.
  - apply str_float_free.
  - reflexivity.
Qed.


Lemma join_cons sep x parts : Str.join sep (x :: parts) = x ++ joined_tail sep parts.
Proof.
  revert x. induction parts as [|y rest IH]; intros x.
  - simpl. by rewrite append_empty_r.
  - change (Str.join sep (x :: y :: rest)) with (x ++ sep ++ Str.join sep (y :: rest)).
    by rewrite IH.
Qed.

Lemma joined_tail_bar parts : starts_with_or_empty bar (joined_tail "|" parts).
Proof. destruct parts; [by left | right; eauto]. Qed.



Lemma fragments_inj os os' (l : list string) :
  joined_tail "|" (map (fragment os) l) = joined_tail "|" (map (fragment os') l) ->
  Forall (fun p => _get_file_hash os p = _get_file_hash os' p) l.
Proof.
  induction l as [|p l IH]; intros H; [constructor |].
  cbn [map joined_tail] in H. unfold fragment at 1 3 in H.
  rewrite !append_assoc in H.
  do 3 apply String.app_inj in H.
  apply (separated_word_inj bar) in H as [Hh Ht];
    auto using _get_file_hash_free, joined_tail_bar.
Qed.

Lemma key_preimage_inj os os' base_key deps :
  Str.join "|" (key_parts os base_key deps) = Str.join "|" (key_parts os' base_key deps) ->
  Forall (fun p => _get_file_hash os p = _get_file_hash os' p) (deps_list deps).
Proof.
  unfold key_parts. rewrite !join_cons. intros H%String.app_inj.
  by apply fragments_inj.
Qed.
End HashText.

Section DirectoryFacts.
Import CacheManager.
Implicit Types (dir : gmap string cache_file) (l : list (string * cache_file)).



Lemma lookup_unlink_all l dir name :
  unlink_all l dir !! name = if decide (name ∈ l.*1) then None else dir !! name.
Proof.
  induction l as [|e l IH].
  - rewrite decide_False; [done | apply not_elem_of_nil].
  - change (unlink_all (e :: l) dir) with (delete e.1 (unlink_all l dir)).
    rewrite fmap_cons. destruct (decide (e.1 = name)) as [<- | Hne].
    + rewrite lookup_delete_eq. rewrite decide_True; [done | left].
    + rewrite lookup_delete_ne by done. rewrite IH.
      destruct (decide (name ∈ l.*1)) as [Hin | Hin].
      * rewrite decide_True; [done | by right].
      * rewrite decide_False; [done |].
        intros [Heq | H]%elem_of_cons; [by subst | done].
Qed.

Lemma elem_of_glob_cache dir name f :
  (name, f) ∈ glob_cache dir <->
  dir !! name = Some f /\ Str.endswith ".cache" name = true.
Proof.
  unfold glob_cache. rewrite list_elem_of_filter, elem_of_map_to_list. simpl.
  rewrite Is_true_true. tauto.
Qed.

Lemma glob_cache_names dir name :
  name ∈ (glob_cache dir).*1 <->
  is_Some (dir !! name) /\ Str.endswith ".cache" name = true.
Proof.
  rewrite list_elem_of_fmap. split.
  - intros [[n f] [-> H]]. apply elem_of_glob_cache in H as [H1 H2]. eauto.
  - intros [[f Hf] He]. exists (name, f). split; [done |].
    by apply elem_of_glob_cache.
Qed.

Lemma NoDup_glob_cache_names dir : NoDup (glob_cache dir).*1.
Proof.
  unfold glob_cache.
  apply (sublist_NoDup _ (map_to_list dir).*1).
  - apply NoDup_fst_map_to_list.
  - apply fmap_sublist, sublist_filter.
Qed.

(** Unlinking distinct existing entries shrinks the directory by their number. *)
Lemma size_unlink_all l dir :
  NoDup l.*1 -> (forall name, name ∈ l.*1 -> is_Some (dir !! name)) ->
  (size (unlink_all l dir) + length l = size dir)%nat.
Proof.
  induction l as [|e l IH]; intros Hnd Hin; [simpl; lia |].
  rewrite fmap_cons in Hnd. apply NoDup_cons in Hnd as [Hfresh Hnd].
  change (unlink_all (e :: l) dir) with (delete e.1 (unlink_all l dir)).
  assert (is_Some (unlink_all l dir !! e.1)) as [f Hf].
  { rewrite lookup_unlink_all, decide_False by done. apply Hin. rewrite fmap_cons. left. }
  rewrite map_size_delete, Hf.
  assert (size (unlink_all l dir) <> 0%nat) as Hpos.
  { intros H0. apply map_size_empty_inv in H0. rewrite H0 in Hf.
    by rewrite lookup_empty in Hf. }
  assert (size (unlink_all l dir) + length l = size dir)%nat as IH'.
  { apply IH; [done |]. intros n Hn. apply Hin. rewrite fmap_cons. by right. }
  simpl length. lia.
Qed.

Lemma glob_cache_empty dir :
  (forall name, Str.endswith ".cache" name = true -> dir !! name = None) ->
  glob_cache dir = [].
Proof.
  intros H. apply elem_of_nil_inv. intros [name f] Hin.
  apply elem_of_glob_cache in Hin as [Hf He]. rewrite (H name He) in Hf. done.
Qed.

(** Eviction only removes entries. *)
Lemma lookup_evict l total limit dir name f :
  evict l total limit dir !! name = Some f -> dir !! name = Some f.
Proof.
  revert total dir. induction l as [|e l IH]; intros total dir; simpl; [done |].
  unfold unlink. destruct (total - cf_size e.2 <=? limit).
  - intros Hl. apply lookup_delete_Some in Hl. tauto.
  - intros Hl%IH. apply lookup_delete_Some in Hl. tauto.
Qed.

Lemma lookup_cleanup cm name f :
  cache_dir (_cleanup_old_entries cm) !! name = Some f -> cache_dir cm !! name = Some f.
Proof.
  unfold _cleanup_old_entries. destruct (_ <? _); simpl; [apply lookup_evict | done].
Qed.


Lemma cleanup_counters cm :
  hits (_cleanup_old_entries cm) = hits cm /\
  misses (_cleanup_old_entries cm) = misses cm /\
  invalidations (_cleanup_old_entries cm) = invalidations cm /\
  _file_hashes (_cleanup_old_entries cm) = _file_hashes cm /\
  max_size_mb (_cleanup_old_entries cm) = max_size_mb cm.
Proof. unfold _cleanup_old_entries. by destruct (_ <? _). Qed.
End DirectoryFacts.

Section CacheTheorems.
Import CacheManager.

Lemma key_parts_ext os os' base_key deps :
Forall (fun p => _get_file_hash os' p = _get_file_hash os p) (deps_list deps) ->
key_parts os' base_key deps = key_parts os base_key deps.
Proof.
intros H. unfold key_parts. f_equal.
induction H as [|p l Hp _ IH]; [done |]. simpl. by rewrite Hp, IH.
Qed.

Lemma _get_cache_path_inj k1 k2 : _get_cache_path k1 = _get_cache_path k2 -> k1 = k2.
Proof. apply append_inv_tail. Qed.

Lemma get_miss_None os cm cache_key file_deps :
cache_dir cm !! _get_cache_path (_build_cache_key os cache_key file_deps) = None ->
get os cm cache_key file_deps = (None, add_miss cm).
Proof. intros H. unfold get. by rewrite H. Qed.

Lemma get_hit_Pickled os cm cache_key file_deps f v :
cache_dir cm !! _get_cache_path (_build_cache_key os cache_key file_deps) = Some f ->
cf_data f = Pickled v ->
get os cm cache_key file_deps =
  (Some v, add_hit cm (<[_get_cache_path (_build_cache_key os cache_key file_deps) := touch os f]>
                         (cache_dir cm))).
Proof. intros H Hd. unfold get. by rewrite H, Hd. Qed.

(** C1, as amended. A value is stored with [set] while the dependencies have
  the hashes of [os]; afterwards a dependency [p] of the list has another
  content hash, in [os']. When MD5 does not collide on the two strings the
  keys are computed from, and the directory held no entry under the
  composite key of the changed files before the [set], [get] with the same
  base key and dependencies finds nothing: it returns no value and counts
  one miss. *)
Theorem get_misses_after_dependency_change
  (pickle_size : string -> Z) (os os' : os_state) (cm : t)
  (base_key value : string) (deps : option (list string)) (p : string) :
p ∈ deps_list deps ->
_get_file_hash os p <> _get_file_hash os' p ->
(MD5.hexdigest (Str.join "|" (key_parts os base_key deps))
   = MD5.hexdigest (Str.join "|" (key_parts os' base_key deps)) ->
 Str.join "|" (key_parts os base_key deps) = Str.join "|" (key_parts os' base_key deps)) ->
cache_dir cm !! _get_cache_path (_build_cache_key os' base_key deps) = None ->
get os' (set pickle_size os cm base_key value deps) base_key deps
= (None, add_miss (set pickle_size os cm base_key value deps)).
Proof.
intros Hp Hchanged Hcollision Hvacant.
assert (_build_cache_key os base_key deps <> _build_cache_key os' base_key deps) as Hkey.
{ intros Heq. apply Hcollision in Heq. apply key_preimage_inj in Heq.
  rewrite Forall_forall in Heq. by apply Hchanged, Heq. }
apply get_miss_None.
destruct (cache_dir (set pickle_size os cm base_key value deps)
            !! _get_cache_path (_build_cache_key os' base_key deps)) as [f|] eqn:Hf; [| done].
exfalso. unfold set in Hf. apply lookup_cleanup in Hf. simpl in Hf.
unfold write_blob in Hf. rewrite lookup_insert_ne in Hf; [congruence |].
intros Hpath. by apply _get_cache_path_inj in Hpath.
Qed.

Lemma get_misses_after_dependency_change_witness :
get Demo.os_world Demo.after_hello "k" Demo.deps = (None, add_miss Demo.after_hello).
Proof.
apply (get_misses_after_dependency_change Demo.pickle_size Demo.os_hello Demo.os_world
         Demo.fresh "k" "v1" Demo.deps "a.txt").
- left.
- intros H. vm_compute in H. discriminate H.
- intros H. vm_compute in H. discriminate H.
- vm_compute. reflexivity.
Defined.

(** C1, counterexample. A value [v0] was stored while [a.txt] held [world];
  then [a.txt] holds [hello] and [set] stores [v1]; then the content
  changes back to [world], so its hash differs from the one at the time of
  that [set]. The next [get] is a hit on the older entry: it returns [v0]
  and counts no miss. *)
Lemma get_hits_after_revert :
_get_file_hash Demo.os_hello "a.txt" = "5d41402abc4b2a76b9719d911017c592"%string /\
_get_file_hash Demo.os_world "a.txt" = "7d793037a0760186574b0282f2f435e7"%string /\
(get Demo.os_world Demo.after_world_hello "k" Demo.deps).1 = Some "v0"%string /\
misses (get Demo.os_world Demo.after_world_hello "k" Demo.deps).2 = 0 /\
hits (get Demo.os_world Demo.after_world_hello "k" Demo.deps).2 = 1.
Proof. vm_compute. repeat split. Qed.

(** C7. For every cache state, [clear] leaves no entry in the directory,
  empties the dependency-hash map and returns the number of entries it
  deleted; [get_stats] then reports an entry count of 0; the hit, miss and
  invalidation counters are the ones before. *)
Theorem clear_deletes_every_entry (cm : t) :
glob_cache (cache_dir (clear cm).2) = [] /\
_file_hashes (clear cm).2 = ∅ /\
(clear cm).1 = Z.of_nat (size (cache_dir cm)) - Z.of_nat (size (cache_dir (clear cm).2)) /\
st_entry_count (get_stats (clear cm).2) = 0 /\
hits (clear cm).2 = hits cm /\
misses (clear cm).2 = misses cm /\
invalidations (clear cm).2 = invalidations cm /\
st_hits (get_stats (clear cm).2) = st_hits (get_stats cm) /\
st_misses (get_stats (clear cm).2) = st_misses (get_stats cm) /\
st_invalidations (get_stats (clear cm).2) = st_invalidations (get_stats cm).
Proof.
assert (glob_cache (cache_dir (clear cm).2) = []) as Hempty.
{ apply glob_cache_empty. intros name Hname. simpl.
  fold (unlink_all (glob_cache (cache_dir cm)) (cache_dir cm)).
  rewrite lookup_unlink_all.
  destruct (cache_dir cm !! name) as [f|] eqn:Hf; [| by case_decide].
  rewrite decide_True; [done |]. apply glob_cache_names. eauto. }
split; [exact Hempty |]. split; [reflexivity |]. split.
- simpl. fold (unlink_all (glob_cache (cache_dir cm)) (cache_dir cm)).
  pose proof (size_unlink_all (glob_cache (cache_dir cm)) (cache_dir cm)
                (NoDup_glob_cache_names _)) as Hsize.
  rewrite <- Hsize; [lia |]. intros name Hin. by apply glob_cache_names in Hin as [? _].
- unfold get_stats. rewrite Hempty. simpl. repeat split.
Qed.

(** C9. Every [get] adds one to exactly one of the two counters: to [hits]
  when the entry exists and unpickles, to [misses] when it is absent or
  does not unpickle. [set], [invalidate_file] and [clear] leave both
  unchanged. So after any run of operations the two grow together by the
  number of [get] calls, and on a new manager [hits + misses] is that
  number. *)
Theorem hits_plus_misses_count_gets (pickle_size : string -> Z) :
(forall os cm cache_key file_deps,
   match cache_dir cm !! _get_cache_path (_build_cache_key os cache_key file_deps) with
   | Some (CacheFile (Pickled value) _ _) =>
       (get os cm cache_key file_deps).1 = Some value /\
       hits (get os cm cache_key file_deps).2 = hits cm + 1 /\
       misses (get os cm cache_key file_deps).2 = misses cm
   | _ =>
       (get os cm cache_key file_deps).1 = None /\
       hits (get os cm cache_key file_deps).2 = hits cm /\
       misses (get os cm cache_key file_deps).2 = misses cm + 1
   end) /\
(forall os cm cache_key value file_deps,
   hits (set pickle_size os cm cache_key value file_deps) = hits cm /\
   misses (set pickle_size os cm cache_key value file_deps) = misses cm) /\
(forall os cm file_path,
   hits (invalidate_file os cm file_path).2 = hits cm /\
   misses (invalidate_file os cm file_path).2 = misses cm) /\
(forall cm, hits (clear cm).2 = hits cm /\ misses (clear cm).2 = misses cm) /\
(forall ops cm,
   hits (cache_run pickle_size ops cm) + misses (cache_run pickle_size ops cm)
   = hits cm + misses cm + count_gets ops) /\
(forall ops dir max_mb,
   hits (cache_run pickle_size ops (__init__ dir max_mb))
     + misses (cache_run pickle_size ops (__init__ dir max_mb))
   = count_gets ops).
Proof.
assert (forall os cm cache_key file_deps,
   match cache_dir cm !! _get_cache_path (_build_cache_key os cache_key file_deps) with
   | Some (CacheFile (Pickled value) _ _) =>
       (get os cm cache_key file_deps).1 = Some value /\
       hits (get os cm cache_key file_deps).2 = hits cm + 1 /\
       misses (get os cm cache_key file_deps).2 = misses cm
   | _ =>
       (get os cm cache_key file_deps).1 = None /\
       hits (get os cm cache_key file_deps).2 = hits cm /\
       misses (get os cm cache_key file_deps).2 = misses cm + 1
   end) as Hget.
{ intros os cm cache_key file_deps. unfold get.
  destruct (cache_dir cm !! _) as [[[v|] atime size]|]; simpl; auto. }
assert (forall os cm cache_key value file_deps,
   hits (set pickle_size os cm cache_key value file_deps) = hits cm /\
   misses (set pickle_size os cm cache_key value file_deps) = misses cm) as Hset.
{ intros. unfold set.
  destruct (cleanup_counters
    (Build (write_blob pickle_size os (cache_dir cm)
              (_get_cache_path (_build_cache_key os cache_key file_deps)) value)
           (max_size_mb cm) (hits cm) (misses cm) (invalidations cm)
           (record_hashes os file_deps (_file_hashes cm)))) as (-> & -> & _).
  done. }
assert (forall os cm file_path,
   hits (invalidate_file os cm file_path).2 = hits cm /\
   misses (invalidate_file os cm file_path).2 = misses cm) as Hinv.
{ intros. unfold invalidate_file. by destruct (_ && _). }
assert (forall ops cm,
   hits (cache_run pickle_size ops cm) + misses (cache_run pickle_size ops cm)
   = hits cm + misses cm + count_gets ops) as Hrun.
{ induction ops as [|op ops IH]; intros cm; [unfold count_gets; simpl; lia |].
  unfold cache_run in *. simpl fold_left. rewrite IH.
  unfold count_gets. destruct op as [os k d | os k v d | os p |]; simpl.
  - specialize (Hget os cm k d).
    destruct (cache_dir cm !! _) as [[[v|] atime size]|]; lia.
  - destruct (Hset os cm k v d) as [-> ->]. lia.
  - destruct (Hinv os cm p) as [-> ->]. lia.
  - lia. }
repeat split; try apply Hget; try apply Hset; try apply Hinv; try apply Hrun.
intros. rewrite Hrun. simpl. lia.
Qed.

(** C6, the failing input. [set] stored an entry that depends on [a.txt]
  and recorded the hash of [a.txt]; the content then changed. The name of
  the entry is the MD5 of the whole key text and does not contain the
  first eight digits of the MD5 of the path, so [invalidate_file] deletes
  nothing and returns 0. *)
Lemma invalidate_file_removes_nothing :
cache_dir Demo.after_hello !! "6c4e7ad8a4cbe142098e3dbd4dcbf091.cache"%string
  = Some (CacheFile (Pickled "v1") 100 17) /\
_file_hashes Demo.after_hello !! "a.txt"%string = Some "5d41402abc4b2a76b9719d911017c592"%string /\
_get_file_hash Demo.os_world "a.txt" = "7d793037a0760186574b0282f2f435e7"%string /\
Str.take 8 (MD5.hexdigest "a.txt") = "a5e54d1f"%string /\
(invalidate_file Demo.os_world Demo.after_hello "a.txt").1 = 0 /\
cache_dir (invalidate_file Demo.os_world Demo.after_hello "a.txt").2
  !! "6c4e7ad8a4cbe142098e3dbd4dcbf091.cache"%string
  = Some (CacheFile (Pickled "v1") 100 17) /\
invalidations (invalidate_file Demo.os_world Demo.after_hello "a.txt").2 = 0.
Proof. vm_compute. repeat split. Qed.

(** X5. A second [invalidate_file] for the same path and the same file system
  finds the recorded hash up to date and returns 0. *)
Lemma invalidate_file_twice os cm file_path :
(invalidate_file os (invalidate_file os cm file_path).2 file_path).1 = 0.
Proof.
unfold invalidate_file at 2.
destruct (Str.truthy_opt (_file_hashes cm !! file_path) && _) eqn:Hchanged; simpl.
- unfold invalidate_file. simpl. rewrite lookup_insert_eq.
  rewrite bool_decide_eq_true_2 by done. by rewrite andb_false_r.
- unfold invalidate_file. by rewrite Hchanged.
Qed.
End CacheTheorems.

Section RegistryFacts.
Import ToolRegistry.
Variable pickle_size : string -> Z.



Lemma get_tool_keeps_invariant r name :
  instances_registered r -> instances_registered (get_tool r name).2.
Proof.
  intros Hinv. unfold get_tool.
  destruct (_instances r !! name) as [i|] eqn:Hi; [done |].
  destruct (_tools r !! name) as [c|] eqn:Hc; [| done].
  intros n. simpl. destruct (decide (name = n)) as [<- | Hne].
  - by rewrite Hc.
  - rewrite lookup_insert_ne by done. apply Hinv.
Qed.

Lemma register_tool_keeps_invariant r tool_class :
  instances_registered r -> instances_registered (register_tool r tool_class).
Proof.
  intros Hinv n. simpl. intros Hn%Hinv.
  destruct (decide (ToolMetadata.name (Tool.metadata (Tool.new tool_class)) = n)) as [<- | Hne].
  - by rewrite lookup_insert_eq.
  - by rewrite lookup_insert_ne.
Qed.

Lemma execute_tool_registry r name context kw w :
  (execute_tool pickle_size r name context kw w).1.2 = (get_tool r name).2.
Proof.
  unfold execute_tool. destruct (get_tool r name) as [[tool|] r']; [| done].
  destruct (negb _); [done |]. by destruct (wrap_errors _ _ _).
Qed.

Lemma reachable_instances_registered r :
  reachable pickle_size r -> instances_registered r.
Proof.
  induction 1 as [| r c _ IH | r n _ IH | r n ctx kw w _ IH].
  - intros n. simpl. rewrite lookup_empty. by intros [? ?].
  - by apply register_tool_keeps_invariant.
  - by apply get_tool_keeps_invariant.
  - rewrite execute_tool_registry. by apply get_tool_keeps_invariant.
Qed.

Lemma get_tool_unregistered r name :
  instances_registered r -> _tools r !! name = None -> get_tool r name = (None, r).
Proof.
  intros Hinv Hnone. unfold get_tool.
  destruct (_instances r !! name) as [i|] eqn:Hi.
  - destruct (Hinv name) as [c Hc]; [by eauto | congruence].
  - by rewrite Hnone.
Qed.
End RegistryFacts.

(** C10. For every tool, [can_execute] on the empty context is [True], as
    for an omitted context, whatever [context_modes] holds; membership in
    [context_modes] decides only for a non-empty context. *)
Theorem can_execute_empty_context (tool : Tool.t) :
  Tool.can_execute tool (Some EmptyString) = true /\
  Tool.can_execute tool (Some EmptyString) = Tool.can_execute tool None /\
  (forall a context,
     Tool.can_execute tool (Some (String a context))
     = Tool.in_context_modes tool (String a context)).
Proof.
  repeat split. intros a context. unfold Tool.can_execute. simpl.
  by destruct (Tool.in_context_modes tool (String a context)).
Qed.

(** C8. For a name that no class is registered under, [execute_tool]
    raises the [ToolError] saying the tool was not found, and the registry
    and the world, with the cache directory and the three counters, are
    what they were. *)
Theorem execute_tool_unregistered (pickle_size : string -> Z) (r : ToolRegistry.t)
    (name : string) (context : option string) (kw : kwargs) (w : world) :
  reachable pickle_size r ->
  ToolRegistry._tools r !! name = None ->
  ToolRegistry.execute_tool pickle_size r name context kw w
  = (Raise (ToolError ("Tool '" ++ name ++ "' not found") name ∅), r, w).
Proof.
  intros Hreach Hnone. unfold ToolRegistry.execute_tool.
  by rewrite (get_tool_unregistered r name (reachable_instances_registered _ r Hreach) Hnone).
Qed.

Lemma execute_tool_unregistered_witness :
  ToolRegistry.execute_tool Demo.pickle_size DemoTool.registry1 "missing" None ∅ DemoTool.world1
  = (Raise (ToolError "Tool 'missing' not found" "missing" ∅), DemoTool.registry1, DemoTool.world1).
Proof.
  apply (execute_tool_unregistered Demo.pickle_size DemoTool.registry1 "missing" None ∅
           DemoTool.world1).
  - apply reachable_execute_tool, reachable_register_tool, reachable_init.
  - vm_compute. reflexivity.
Defined.

(** C4, the failing input. [First] is registered as [demo] and looked up
    once; [Second] is then registered under the same name. [_tools] maps
    [demo] to [Second], but [get_tool] and [execute_tool] still use the
    memoized instance of [First]. *)
Lemma get_tool_after_reregistration_is_stale :
  __name__ <$> (ToolRegistry._tools DemoTool.reregistered !! "demo"%string) = Some "Second"%string /\
  (__name__ ∘ Tool.tool_class) <$> (ToolRegistry.get_tool DemoTool.reregistered "demo").1
    = Some "First"%string /\
  (ToolRegistry.execute_tool Demo.pickle_size DemoTool.reregistered "demo" None ∅
     DemoTool.world0).1.1 = Ok "first result"%string.
Proof. vm_compute. repeat split. Qed.

(** C2, as amended. For a registered tool that may execute in the given
    context, whose [get_cache_key] on the validated parameters returns a
    non-empty key, when the cache directory holds an unpickling entry under
    the composite key of that key and the declared dependencies,
    [execute_tool] returns the cached result; neither hook nor [apply] is
    invoked, the file system is untouched, and the cache counts one hit. *)
Theorem execute_tool_cache_hit_skips_hooks
    (pickle_size : string -> Z) (r r' : ToolRegistry.t) (tool : Tool.t)
    (name : string) (context : option string) (kw validated_params : kwargs) (w : world)
    (cm : CacheManager.t) (cache_key : string) (file_deps : option (list string))
    (f : cache_file) (cached : string) :
  ToolRegistry.get_tool r name = (Some tool, r') ->
  Tool.can_execute tool context = true ->
  validate_params (Tool.tool_class tool) (Tool.project_root tool) (w_os w) kw
    = Ok validated_params ->
  get_cache_key (Tool.tool_class tool) (Tool.project_root tool) (w_os w) validated_params
    = Ok (Some cache_key) ->
  Str.truthy cache_key = true ->
  get_file_dependencies (Tool.tool_class tool) (Tool.project_root tool) (w_os w)
    validated_params = Ok file_deps ->
  w_cache w = Some cm ->
  CacheManager.cache_dir cm
    !! CacheManager._get_cache_path (CacheManager._build_cache_key (w_os w) cache_key file_deps)
    = Some f ->
  cf_data f = Pickled cached ->
  ToolRegistry.execute_tool pickle_size r name context kw w
  = (Ok cached, r',
     World (w_os w) (Some (CacheManager.get (w_os w) cm cache_key file_deps).2) (w_calls w)) /\
  w_calls (ToolRegistry.execute_tool pickle_size r name context kw w).2 = w_calls w /\
  w_os (ToolRegistry.execute_tool pickle_size r name context kw w).2 = w_os w /\
  CacheManager.hits (CacheManager.get (w_os w) cm cache_key file_deps).2
    = CacheManager.hits cm + 1.
Proof.
  intros Hget Hcan Hvalid Hkey Htruthy Hdeps Hcache Hentry Hdata.
  assert (ToolRegistry.execute_tool pickle_size r name context kw w
          = (Ok cached, r',
             World (w_os w) (Some (CacheManager.get (w_os w) cm cache_key file_deps).2)
               (w_calls w))) as Hexec.
  { unfold ToolRegistry.execute_tool. rewrite Hget, Hcan. simpl negb. cbv iota.
    unfold wrap_errors, ToolRegistry.execute_body, ToolRegistry.check_cache.
    unfold mbind, M_bind, bind, reading. rewrite Hvalid, Hkey.
    cbn [Str.truthy_opt]. rewrite Htruthy. cbv beta iota. rewrite Hdeps.
    unfold get_cache. rewrite Hcache. cbv beta iota.
    unfold ToolRegistry.cache_manager_get. cbn [default from_option]. unfold id.
    rewrite (get_hit_Pickled _ _ _ _ _ _ Hentry Hdata). reflexivity. }
  rewrite Hexec. repeat split.
  by rewrite (get_hit_Pickled _ _ _ _ _ _ Hentry Hdata).
Qed.

Lemma execute_tool_cache_hit_skips_hooks_witness :
  ToolRegistry.execute_tool Demo.pickle_size DemoTool.registry1 "demo" (Some "debugging"%string)
    ∅ DemoTool.world1
  = (Ok "first result"%string, DemoTool.registry1,
     World Demo.os_hello
       (Some (CacheManager.get Demo.os_hello
                DemoTool.cache1 "fixed-key" Demo.deps).2)
       [CallPreExecuteHook "demo"; CallApply "demo"; CallPostExecuteHook "demo"]) /\
  w_calls (ToolRegistry.execute_tool Demo.pickle_size DemoTool.registry1 "demo"
             (Some "debugging"%string) ∅ DemoTool.world1).2
  = [CallPreExecuteHook "demo"; CallApply "demo"; CallPostExecuteHook "demo"] /\
  w_os (ToolRegistry.execute_tool Demo.pickle_size DemoTool.registry1 "demo"
          (Some "debugging"%string) ∅ DemoTool.world1).2 = Demo.os_hello /\
  CacheManager.hits
    (CacheManager.get Demo.os_hello
       DemoTool.cache1 "fixed-key" Demo.deps).2 = 0 + 1.
Proof.
  apply (execute_tool_cache_hit_skips_hooks Demo.pickle_size DemoTool.registry1
           DemoTool.registry1 (Tool.new DemoTool.First) "demo" (Some "debugging"%string) ∅ ∅
           DemoTool.world1
           DemoTool.cache1
           "fixed-key" Demo.deps
           (CacheFile (Pickled "first result") 100 27) "first result").
  - vm_compute. reflexivity.
  - vm_compute. reflexivity.
  - reflexivity.
  - reflexivity.
  - reflexivity.
  - reflexivity.
  - vm_compute. reflexivity.
  - vm_compute. reflexivity.
  - reflexivity.
Defined.

(** C2, counterexample. The cache holds a value under the key and the
    dependencies of [demo], whose modes are [debugging] only. Executed in
    context [exploration], the call raises a [ToolError] instead of
    returning the cached result. *)
Lemma execute_tool_cached_but_wrong_context :
  (w_cache DemoTool.world1 ≫= fun cm =>
     CacheManager.cache_dir cm
       !! CacheManager._get_cache_path
            (CacheManager._build_cache_key (w_os DemoTool.world1) "fixed-key" Demo.deps))
  = Some (CacheFile (Pickled "first result") 100 27) /\
  ToolRegistry.execute_tool Demo.pickle_size DemoTool.registry1 "demo"
    (Some "exploration"%string) ∅ DemoTool.world1
  = (Raise (ToolError "Tool 'demo' cannot execute in context 'exploration'" "demo" ∅),
     DemoTool.registry1, DemoTool.world1).
Proof. vm_compute. repeat split. Qed.




Section HexText.
Local Open Scope string_scope.

Lemma hex_digit_is_hex n : is_hex (MD5.hex_digit n) = true.
Proof.
unfold MD5.hex_digit. generalize (Z.to_nat n). intros k.
do 16 (destruct k as [|k]; [reflexivity |]). by destruct k.
Qed.

Lemma hex_of_bytes_is_hex bs :
forallb is_hex (list_ascii_of_string (MD5.hex_of_bytes bs)) = true.
Proof.
induction bs as [|b bs IH]; [reflexivity |].
cbn [MD5.hex_of_bytes list_ascii_of_string forallb].
by rewrite !hex_digit_is_hex, IH.
Qed.

Lemma hex_of_bytes_length bs :
String.length (MD5.hex_of_bytes bs) = (2 * length bs)%nat.
Proof. induction bs as [|b bs IH]; simpl; [reflexivity | rewrite IH; lia]. Qed.

Lemma le_bytes_length n w : length (MD5.le_bytes n w) = n.
Proof. revert w. induction n as [|n IH]; intros w; simpl; [done | by rewrite IH]. Qed.

Lemma digest_length msg : length (MD5.digest msg) = 16%nat.
Proof. unfold MD5.digest. cbv zeta. rewrite !length_app, !le_bytes_length. reflexivity. Qed.

Lemma hexdigest_length s : String.length (MD5.hexdigest s) = 32%nat.
Proof. unfold MD5.hexdigest. by rewrite hex_of_bytes_length, digest_length. Qed.

Lemma hexdigest_is_hex s : forallb is_hex (list_ascii_of_string (MD5.hexdigest s)) = true.
Proof. apply hex_of_bytes_is_hex. Qed.

(** A text of hexadecimal digits holds no other character. *)
Lemma hex_text_free_of c s :
is_hex c = false -> forallb is_hex (list_ascii_of_string s) = true ->
Str.free_of c s = true.
Proof.
intros Hc. induction s as [|a s IH]; [done |].
cbn [list_ascii_of_string forallb Str.free_of]. intros [Ha Hs]%andb_prop.
rewrite (IH Hs), andb_true_r. destruct (Ascii.eqb_spec a c) as [-> |]; [congruence | done].
Qed.

Lemma free_of_append_suffix c a b :
Str.free_of c a = true -> Str.free_of c b = true -> Str.free_of c (a ++ b) = true.
Proof. intros Ha Hb. by rewrite free_of_append, Ha, Hb. Qed.

Lemma endswith_append suf a : Str.endswith suf (a ++ suf) = true.
Proof.
induction a as [|x a IH].
- rewrite append_nil. destruct suf; cbn [Str.endswith]; by rewrite String.eqb_refl.
- rewrite append_cons. cbn [Str.endswith]. rewrite IH. apply orb_true_r.
Qed.
End HexText.

Section CacheExtras.
Import CacheManager.

(** X1. Whatever the base key and the dependency paths contain, the composite
  key is 32 hexadecimal digits, so the name of the entry has 38
  characters, ends in [.cache] and holds no path separator. *)
Theorem cache_entry_name_is_safe (os : os_state) (base_key : string)
  (file_deps : option (list string)) :
String.length (_build_cache_key os base_key file_deps) = 32%nat /\
forallb is_hex (list_ascii_of_string (_build_cache_key os base_key file_deps)) = true /\
String.length (_get_cache_path (_build_cache_key os base_key file_deps)) = 38%nat /\
Str.free_of "/" (_get_cache_path (_build_cache_key os base_key file_deps)) = true /\
Str.endswith ".cache" (_get_cache_path (_build_cache_key os base_key file_deps)) = true.
Proof.
unfold _build_cache_key, _get_cache_path.
split; [| split; [| split; [| split]]].
- apply hexdigest_length.
- apply hexdigest_is_hex.
- by rewrite length_append, hexdigest_length.
- apply free_of_append_suffix; [| reflexivity].
  apply hex_text_free_of; [reflexivity | apply hexdigest_is_hex].
- apply endswith_append.
Qed.
End CacheExtras.

Section HashFacts.
Import CacheManager.

Lemma string_of_uint_free_n d : Str.free_of "n" (NilEmpty.string_of_uint d) = true.
Proof. induction d; simpl; auto. Qed.

Lemma str_float_free_n t : Str.free_of "n" (str_float t) = true.
Proof.
unfold str_float. rewrite !free_of_append.
assert (forall d, Str.free_of "n" (NilZero.string_of_uint d) = true) as H.
{ intros d. destruct d; try reflexivity; apply (string_of_uint_free_n (_ d)). }
by rewrite !H.
Qed.

(** X2. The hash of a path that does not exist is the text [nonexistent],
  and it differs from the hash the same path has in any file system where
  it exists, whether it can be read there or not. *)
Theorem file_hash_tells_existence (os os' : os_state) (file_path : string) :
files os !! file_path = None ->
is_Some (files os' !! file_path) ->
_get_file_hash os file_path = "nonexistent"%string /\
_get_file_hash os file_path <> _get_file_hash os' file_path.
Proof.
intros Habsent [f Hf]. unfold _get_file_hash. rewrite Habsent, Hf.
split; [reflexivity |]. intros Heq.
assert (Str.free_of "n" "nonexistent" = true) as Hfree; [| discriminate Hfree].
rewrite Heq. destruct (f_content f) as [content|].
- apply hex_text_free_of; [reflexivity | apply hexdigest_is_hex].
- apply str_float_free_n.
Qed.

Lemma file_hash_tells_existence_witness :
_get_file_hash Demo.os_empty "a.txt" = "nonexistent"%string /\
_get_file_hash Demo.os_empty "a.txt" <> _get_file_hash Demo.os_hello "a.txt".
Proof.
apply (file_hash_tells_existence Demo.os_empty Demo.os_hello "a.txt").
- reflexivity.
- vm_compute. eauto.
Defined.

(** X3. The composite key follows content, not modification time: when every
  dependency is absent from both file systems, or readable in both with
  the same content, the two keys are equal. *)
Theorem cache_key_ignores_mtime_of_readable_files (os os' : os_state) (base_key : string)
  (file_deps : option (list string)) :
Forall (same_readable_content os os') (deps_list file_deps) ->
_build_cache_key os' base_key file_deps = _build_cache_key os base_key file_deps.
Proof.
intros H. unfold _build_cache_key. rewrite (key_parts_ext os os'); [done |].
eapply Forall_impl; [exact H |]. cbv beta. intros p Hp.
unfold same_readable_content in Hp. unfold _get_file_hash.
destruct (files os !! p) as [f|], (files os' !! p) as [f'|]; try done.
destruct Hp as [[c Hc] Heq]. by rewrite <- Heq, Hc.
Qed.

Lemma cache_key_ignores_mtime_of_readable_files_witness :
_build_cache_key (Demo.os_notes Demo.t1) "k" (Some ["/repo/notes.txt"%string; "a.txt"%string])
= _build_cache_key (Demo.os_notes Demo.t0) "k" (Some ["/repo/notes.txt"%string; "a.txt"%string]).
Proof.
apply (cache_key_ignores_mtime_of_readable_files (Demo.os_notes Demo.t0)
         (Demo.os_notes Demo.t1) "k" (Some ["/repo/notes.txt"%string; "a.txt"%string])).
repeat constructor. vm_compute. eauto.
Defined.
End HashFacts.

Section DependencyOrder.
Local Open Scope string_scope.
Import CacheManager.












(** The premise on bars is needed: the paths [p:nonexistent|p] and [p],
  neither of which exists, give one key text in both orders, and a value
  stored under one order is a hit when read under the other. *)
Lemma reordered_dependencies_with_bar_hit :
  deps_list Demo.deps_bar_last ≡ₚ deps_list Demo.deps_bar_first /\
  deps_list Demo.deps_bar_last <> deps_list Demo.deps_bar_first /\
  Str.join "|" (key_parts Demo.os_empty "k" Demo.deps_bar_last)
    = Str.join "|" (key_parts Demo.os_empty "k" Demo.deps_bar_first) /\
  (get Demo.os_empty Demo.after_bar_first "k" Demo.deps_bar_last).1 = Some "v".
Proof.
  split; [apply Permutation_swap |]. split; [discriminate |]. vm_compute. by split.
Qed.
End DependencyOrder.

Section CacheComposition.
Import CacheManager.
Variable pickle_size : string -> Z.

Lemma lookup_record_hashes os file_deps hashes path :
record_hashes os file_deps hashes !! path
= if decide (path ∈ deps_list file_deps) then Some (_get_file_hash os path)
  else hashes !! path.
Proof.
unfold record_hashes. generalize (deps_list file_deps). intros l.
revert hashes. induction l as [|p l IH]; intros hashes; cbn [fold_left].
- rewrite decide_False; [done | apply not_elem_of_nil].
- rewrite IH. destruct (decide (path ∈ l)) as [Hin | Hin].
  + rewrite decide_True; [done | by right].
  + destruct (decide (p = path)) as [-> | Hne].
    * rewrite lookup_insert_eq. rewrite decide_True; [done | left].
    * rewrite lookup_insert_ne by done. rewrite decide_False; [done |].
      intros [? | ?]%elem_of_cons; congruence.
Qed.

(** X4. [set] records the current hash of every dependency it is given, so
  [invalidate_file] for one of them, while that file still has this hash,
  returns 0 and changes nothing. *)
Theorem set_records_dependency_hashes (os os' : os_state) (cm : t)
  (cache_key value : string) (file_deps : option (list string)) (file_path : string) :
file_path ∈ deps_list file_deps ->
_get_file_hash os' file_path = _get_file_hash os file_path ->
_file_hashes (set pickle_size os cm cache_key value file_deps) !! file_path
  = Some (_get_file_hash os file_path) /\
invalidate_file os' (set pickle_size os cm cache_key value file_deps) file_path
  = (0, set pickle_size os cm cache_key value file_deps).
Proof.
intros Hin Hsame.
assert (_file_hashes (set pickle_size os cm cache_key value file_deps) !! file_path
        = Some (_get_file_hash os file_path)) as Hrec.
{ unfold set.
  destruct (cleanup_counters
    (Build (write_blob pickle_size os (cache_dir cm)
              (_get_cache_path (_build_cache_key os cache_key file_deps)) value)
           (max_size_mb cm) (hits cm) (misses cm) (invalidations cm)
           (record_hashes os file_deps (_file_hashes cm)))) as (_ & _ & _ & -> & _).
  cbn [_file_hashes]. rewrite lookup_record_hashes. by rewrite decide_True. }
split; [exact Hrec |].
unfold invalidate_file. rewrite Hrec, Hsame.
rewrite bool_decide_eq_true_2 by done. by rewrite andb_false_r.
Qed.

(** X6. The number [invalidate_file] returns is never negative, it is the
  number of entries the directory lost, and [invalidations] grows by it;
  [hits] and [misses] stay, and no entry is added or altered. *)
Theorem invalidate_file_accounting (os : os_state) (cm : t) (file_path : string) :
0 <= (invalidate_file os cm file_path).1 /\
(invalidate_file os cm file_path).1
  = Z.of_nat (size (cache_dir cm))
    - Z.of_nat (size (cache_dir (invalidate_file os cm file_path).2)) /\
invalidations (invalidate_file os cm file_path).2
  = invalidations cm + (invalidate_file os cm file_path).1 /\
hits (invalidate_file os cm file_path).2 = hits cm /\
misses (invalidate_file os cm file_path).2 = misses cm /\
cache_dir (invalidate_file os cm file_path).2 ⊆ cache_dir cm.
Proof.
unfold invalidate_file.
destruct (Str.truthy_opt (_file_hashes cm !! file_path) && _); cbn [fst snd].
- set (victims := filter _ (glob_cache (cache_dir cm))).
  cbn [cache_dir invalidations hits misses].
  fold (unlink_all victims (cache_dir cm)).
  assert (NoDup victims.*1) as Hnd.
  { apply (sublist_NoDup _ (glob_cache (cache_dir cm)).*1).
    - apply NoDup_glob_cache_names.
    - apply fmap_sublist, sublist_filter. }
  assert (forall name, name ∈ victims.*1 -> is_Some (cache_dir cm !! name)) as Hin.
  { intros name [[n f] [-> H]]%list_elem_of_fmap.
    apply list_elem_of_filter in H as [_ H]. apply elem_of_glob_cache in H as [H _]. eauto. }
  pose proof (size_unlink_all victims (cache_dir cm) Hnd Hin) as Hsize.
  repeat split; try lia.
  apply map_subseteq_spec. intros name f. rewrite lookup_unlink_all.
  by case_decide.
- repeat split; try lia; reflexivity.
Qed.

(** X7. [invalidate_file] keeps every file of the directory whose name does
  not contain the first eight digits of the MD5 of the path, and every
  file that is not a [.cache] file. *)
Theorem invalidate_file_keeps_other_entries (os : os_state) (cm : t)
  (file_path name : string) :
Str.contains (invalidation_pattern file_path) name = false \/
Str.endswith ".cache" name = false ->
cache_dir (invalidate_file os cm file_path).2 !! name = cache_dir cm !! name.
Proof.
intros Hname. unfold invalidate_file.
destruct (Str.truthy_opt (_file_hashes cm !! file_path) && _); cbn [fst snd]; [| done].
cbn [cache_dir]. set (victims := filter _ (glob_cache (cache_dir cm))).
fold (unlink_all victims (cache_dir cm)). rewrite lookup_unlink_all.
rewrite decide_False; [done |].
intros [[n f] [-> H]]%list_elem_of_fmap.
apply list_elem_of_filter in H as [Hmatch H]. apply elem_of_glob_cache in H as [_ Hend].
cbn [fst] in *. apply Is_true_true in Hmatch. unfold invalidation_pattern in Hname.
destruct Hname; congruence.
Qed.

(** X8. After [clear], every [get] is a miss, whatever the key, the
  dependencies and the file system. *)
Theorem get_after_clear_misses (os : os_state) (cm : t) (cache_key : string)
  (file_deps : option (list string)) :
get os (clear cm).2 cache_key file_deps = (None, add_miss (clear cm).2).
Proof.
apply get_miss_None. cbn [clear snd cache_dir].
fold (unlink_all (glob_cache (cache_dir cm)) (cache_dir cm)).
rewrite lookup_unlink_all.
destruct (cache_dir cm !! _get_cache_path (_build_cache_key os cache_key file_deps))
  as [f|] eqn:Hf; [| by case_decide].
rewrite decide_True; [done |]. apply glob_cache_names. split; [by eauto |].
apply endswith_append.
Qed.

End CacheComposition.

Section Eviction.
Import CacheManager.
Implicit Types (dir : gmap string cache_file) (l : list (string * cache_file)).

Lemma insert_by_atime_perm e l : insert_by_atime e l ≡ₚ e :: l.
Proof.
induction l as [|e' l IH]; [done |]. cbn [insert_by_atime].
destruct (cf_atime e'.2 <? cf_atime e.2); [| done].
rewrite IH. apply Permutation_swap.
Qed.

Lemma sort_by_atime_perm l : sort_by_atime l ≡ₚ l.
Proof.
induction l as [|e l IH]; [done |]. unfold sort_by_atime in *. cbn [foldr].
by rewrite insert_by_atime_perm, IH.
Qed.

Lemma insert_by_atime_sorted e l :
StronglySorted atime_le l -> StronglySorted atime_le (insert_by_atime e l).
Proof.
induction l as [|e' l IH]; intros Hs; cbn [insert_by_atime].
- repeat constructor.
- apply StronglySorted_cons in Hs as [Hall Hs].
  destruct (Z.ltb_spec (cf_atime e'.2) (cf_atime e.2)) as [Hlt | Hge].
  + apply StronglySorted_cons. split; [| by apply IH].
    rewrite insert_by_atime_perm. constructor; [unfold atime_le; lia | done].
  + apply StronglySorted_cons. split.
    * constructor; [done |]. eapply Forall_impl; [exact Hall |].
      unfold atime_le. intros x Hx. cbv beta in *. lia.
    * by apply StronglySorted_cons.
Qed.

Lemma sort_by_atime_sorted l : StronglySorted atime_le (sort_by_atime l).
Proof.
induction l as [|e l IH]; [constructor |]. unfold sort_by_atime in *. cbn [foldr].
by apply insert_by_atime_sorted.
Qed.

Lemma total_size_app l1 l2 : total_size (l1 ++ l2) = total_size l1 + total_size l2.
Proof. induction l1 as [|e l1 IH]; simpl; [done | rewrite IH; lia]. Qed.

Lemma total_size_perm l1 l2 : l1 ≡ₚ l2 -> total_size l1 = total_size l2.
Proof. induction 1; simpl; lia. Qed.

Lemma unlink_all_delete l dir name :
unlink_all l (delete name dir) = delete name (unlink_all l dir).
Proof.
apply map_eq. intros i. rewrite lookup_unlink_all.
destruct (decide (name = i)) as [<- | Hne].
- rewrite !lookup_delete_eq. by case_decide.
- rewrite !lookup_delete_ne by done. by rewrite lookup_unlink_all.
Qed.

(** The loop unlinks a prefix of the list and stops at the first total
  within the limit. *)
Lemma evict_prefix l total limit dir :
exists removed kept,
  l = removed ++ kept /\
  evict l total limit dir = unlink_all removed dir /\
  (kept = [] \/ total - total_size removed <= limit).
Proof.
revert total dir. induction l as [|e l IH]; intros total dir.
- exists [], []. auto.
- cbn [evict]. destruct (Z.leb_spec (total - cf_size e.2) limit) as [Hle | Hgt].
  + exists [e], l. split; [done |]. split; [done |]. right. simpl. lia.
  + destruct (IH (total - cf_size e.2) (unlink e.1 dir)) as (removed & kept & -> & Hev & Hk).
    exists (e :: removed), kept. split; [done |]. split.
    * rewrite Hev. unfold unlink. apply unlink_all_delete.
    * destruct Hk as [-> | Hk]; [by left | right]. simpl. lia.
Qed.

Lemma NoDup_glob_cache dir : NoDup (glob_cache dir).
Proof.
unfold glob_cache. apply (sublist_NoDup _ (map_to_list dir)).
- apply NoDup_map_to_list.
- apply sublist_filter.
Qed.

(** What the directory lists after a prefix of the sorted entries is gone. *)
Lemma glob_cache_after_unlink dir removed kept :
removed ++ kept ≡ₚ glob_cache dir ->
glob_cache (unlink_all removed dir) ≡ₚ kept.
Proof.
intros Hperm.
assert (NoDup (removed ++ kept).*1) as Hnames.
{ rewrite Hperm. apply NoDup_glob_cache_names. }
rewrite fmap_app in Hnames. apply NoDup_app in Hnames as (_ & Hdisj & Hkept).
apply NoDup_Permutation.
- apply NoDup_glob_cache.
- by apply NoDup_fmap_1 in Hkept.
- intros [n f]. rewrite elem_of_glob_cache, lookup_unlink_all. split.
  + intros [Hl He]. case_decide as Hin; [done |].
    assert ((n, f) ∈ removed ++ kept) as Hx.
    { rewrite Hperm. by apply elem_of_glob_cache. }
    apply elem_of_app in Hx as [Hx | Hx]; [| done].
    exfalso. apply Hin. apply list_elem_of_fmap. by exists (n, f).
  + intros Hx.
    assert ((n, f) ∈ glob_cache dir) as Hg.
    { rewrite <- Hperm. apply elem_of_app. by right. }
    apply elem_of_glob_cache in Hg as [Hl He]. split; [| done].
    rewrite decide_False; [done |]. intros Hin.
    apply (Hdisj n Hin). apply list_elem_of_fmap. by exists (n, f).
Qed.

Lemma cleanup_respects_limit cm :
0 <= max_size_mb cm ->
total_size (glob_cache (cache_dir (_cleanup_old_entries cm))) <= max_size_mb cm * 1024 * 1024.
Proof.
intros Hmax. unfold _cleanup_old_entries.
destruct (Z.ltb_spec (max_size_mb cm * 1024 * 1024) (total_size (glob_cache (cache_dir cm))))
  as [Hover | Hfits]; [| done].
cbn [cache_dir].
destruct (evict_prefix (sort_by_atime (glob_cache (cache_dir cm)))
            (total_size (glob_cache (cache_dir cm))) (max_size_mb cm * 1024 * 1024)
            (cache_dir cm)) as (removed & kept & Hsplit & -> & Hstop).
assert (removed ++ kept ≡ₚ glob_cache (cache_dir cm)) as Hperm.
{ rewrite <- Hsplit. apply sort_by_atime_perm. }
rewrite (total_size_perm _ _ (glob_cache_after_unlink _ _ _ Hperm)).
destruct Hstop as [-> | Hstop]; [simpl; lia |].
rewrite <- (total_size_perm _ _ Hperm), total_size_app in Hstop. lia.
Qed.

(** X10. With a limit that is not negative, the [.cache] files of the
  directory add up to at most [max_size_mb] mebibytes after every [set],
  and [get_stats] reports that size. *)
Theorem set_keeps_cache_within_limit (pickle_size : string -> Z) (os : os_state) (cm : t)
  (cache_key value : string) (file_deps : option (list string)) :
0 <= max_size_mb cm ->
total_size (glob_cache (cache_dir (set pickle_size os cm cache_key value file_deps)))
  <= max_size_mb cm * 1024 * 1024 /\
st_cache_size (get_stats (set pickle_size os cm cache_key value file_deps))
  <= max_size_mb cm * 1024 * 1024.
Proof.
intros Hmax. unfold set.
set (written := Build _ _ _ _ _ _).
pose proof (cleanup_respects_limit written Hmax) as H. by split.
Qed.

(** X11. Eviction removes the least recently accessed entries first: an
  entry the cleanup removed was accessed no later than any entry it
  kept. *)
Theorem cleanup_evicts_oldest_first (cm : t) (old_name kept_name : string)
  (old_file kept_file : cache_file) :
(old_name, old_file) ∈ glob_cache (cache_dir cm) ->
(kept_name, kept_file) ∈ glob_cache (cache_dir cm) ->
cache_dir (_cleanup_old_entries cm) !! old_name = None ->
is_Some (cache_dir (_cleanup_old_entries cm) !! kept_name) ->
cf_atime old_file <= cf_atime kept_file.
Proof.
intros Hold Hkept. unfold _cleanup_old_entries.
destruct (_ <? _).
2:{ intros Hgone. apply elem_of_glob_cache in Hold as [Hl _]. congruence. }
cbn [cache_dir].
destruct (evict_prefix (sort_by_atime (glob_cache (cache_dir cm)))
            (total_size (glob_cache (cache_dir cm))) (max_size_mb cm * 1024 * 1024)
            (cache_dir cm)) as (removed & kept & Hsplit & -> & _).
assert (removed ++ kept ≡ₚ glob_cache (cache_dir cm)) as Hperm.
{ rewrite <- Hsplit. apply sort_by_atime_perm. }
pose proof (sort_by_atime_sorted (glob_cache (cache_dir cm))) as Hsorted.
rewrite Hsplit in Hsorted.
rewrite !lookup_unlink_all. intros Hgone Hstays.
assert (NoDup (removed ++ kept).*1) as Hnames.
{ rewrite Hperm. apply NoDup_glob_cache_names. }
assert (forall n f, (n, f) ∈ removed ++ kept -> n ∈ removed.*1 -> (n, f) ∈ removed) as Hrem.
{ intros n f Hx Hn. apply elem_of_app in Hx as [Hx | Hx]; [done |]. exfalso.
  rewrite fmap_app in Hnames. apply NoDup_app in Hnames as (_ & Hdisj & _).
  apply (Hdisj n Hn). apply list_elem_of_fmap. by exists (n, f). }
assert ((old_name, old_file) ∈ removed) as Hin_old.
{ apply Hrem; [by rewrite Hperm |].
  destruct (decide (old_name ∈ removed.*1)) as [Hin | Hout]; [done |].
  cbv iota in Hgone.
  apply elem_of_glob_cache in Hold as [Hl _]. congruence. }
assert ((kept_name, kept_file) ∈ kept) as Hin_kept.
{ assert ((kept_name, kept_file) ∈ removed ++ kept) as Hx by by rewrite Hperm.
  apply elem_of_app in Hx as [Hx | Hx]; [| done]. exfalso.
  rewrite decide_True in Hstays; [by destruct Hstays |].
  apply list_elem_of_fmap. by exists (kept_name, kept_file). }
apply (StronglySorted_app_1_elem_of _ _ _ _ _ Hsorted Hin_old Hin_kept).
Qed.
End Eviction.

Section RegistryExtras.
Import ToolRegistry.
Variable pickle_size : string -> Z.

Lemma later_keeps_instance (r r' : ToolRegistry.t) (name : string) (tool : Tool.t) :
_instances r !! name = Some tool ->
later pickle_size r r' ->
_instances r' !! name = Some tool.
Proof.
intros Hmemo. induction 1 as [| r' c _ IH | r' n _ IH | r' n ctx kw w _ IH].
- exact Hmemo.
- exact IH.
- unfold get_tool. destruct (_instances r' !! n) as [i|] eqn:Hi; [exact IH |].
  destruct (_tools r' !! n) as [c|]; [| exact IH].
  cbn [snd _instances]. rewrite lookup_insert_ne; [exact IH | congruence].
- rewrite execute_tool_registry.
  unfold get_tool. destruct (_instances r' !! n) as [i|] eqn:Hi; [exact IH |].
  destruct (_tools r' !! n) as [c|]; [| exact IH].
  cbn [snd _instances]. rewrite lookup_insert_ne; [exact IH | congruence].
Qed.

(** X12. [get_tool] memoizes one instance per name. For a name under which
  a class is registered, [get_tool] returns an instance; it is the one
  [_instances] holds under the name afterwards, and every later lookup of
  the name returns this instance and changes nothing, whatever was
  registered, looked up or executed in between. When none was memoized,
  the instance is a new one of the registered class; when one was, it is
  returned and the registry is as before. The instances under other
  names, the registered classes and the context buckets are as before. *)
Theorem get_tool_memoizes (r : ToolRegistry.t) (name : string) (tool_class : ToolClass) :
_tools r !! name = Some tool_class ->
exists tool,
  (get_tool r name).1 = Some tool /\
  _instances (get_tool r name).2 !! name = Some tool /\
  (forall r', later pickle_size (get_tool r name).2 r' -> get_tool r' name = (Some tool, r')) /\
  (_instances r !! name = None -> tool = Tool.new tool_class) /\
  (forall memoized, _instances r !! name = Some memoized ->
                    tool = memoized /\ (get_tool r name).2 = r) /\
  delete name (_instances (get_tool r name).2) = delete name (_instances r) /\
  _tools (get_tool r name).2 = _tools r /\
  _contexts (get_tool r name).2 = _contexts r.
Proof.
intros Hregistered.
assert (exists tool, (get_tool r name).1 = Some tool) as [tool Hfound].
{ unfold get_tool. destruct (_instances r !! name) as [i|]; [by eauto |].
  rewrite Hregistered. by eauto. }
exists tool. split; [exact Hfound |].
assert (_instances (get_tool r name).2 !! name = Some tool) as Hmemo.
{ revert Hfound. unfold get_tool. destruct (_instances r !! name) as [i|] eqn:Hi.
  - cbn [fst snd]. by intros [= <-].
  - rewrite Hregistered. cbn [fst snd _instances].
    intros [= <-]. apply lookup_insert_eq. }
split; [exact Hmemo |]. split.
{ intros r' Hlater. pose proof (later_keeps_instance _ _ _ _ Hmemo Hlater) as Hi.
  unfold get_tool. by rewrite Hi. }
revert Hfound. unfold get_tool.
destruct (_instances r !! name) as [i|] eqn:Hi.
- cbn [fst snd]. intros [= <-]. split; [done |]. split; [by intros ? [= <-] |]. done.
- rewrite Hregistered. cbn [fst snd _instances _tools _contexts].
  intros [= <-]. split; [done |]. split; [done |].
  by rewrite delete_insert_eq.
Qed.

(** X13. When no instance is memoized under the name of a class, the lookup
  after its registration returns a new instance of that class. *)
Theorem register_tool_then_get_tool (r : ToolRegistry.t) (tool_class : ToolClass) :
_instances r !! ToolMetadata.name (cls_metadata tool_class) = None ->
(get_tool (register_tool r tool_class) (ToolMetadata.name (cls_metadata tool_class))).1
  = Some (Tool.new tool_class) /\
_tools (register_tool r tool_class) !! ToolMetadata.name (cls_metadata tool_class)
  = Some tool_class.
Proof.
intros Hfresh. unfold get_tool, register_tool. cbn [_instances _tools Tool.metadata Tool.new
  Tool.tool_class]. rewrite Hfresh, lookup_insert_eq. done.
Qed.

Lemma register_tool_then_get_tool_witness :
(get_tool (register_tool DemoTool.registry DemoTool.Second) "demo").1
  = Some (Tool.new DemoTool.Second) /\
_tools (register_tool DemoTool.registry DemoTool.Second) !! "demo"%string
  = Some DemoTool.Second.
Proof.
apply (register_tool_then_get_tool DemoTool.registry DemoTool.Second).
vm_compute. reflexivity.
Defined.

Lemma lookup_add_to_context name contexts m context :
add_to_context name contexts m !! context
= if decide (context = m) then Some (default [] (contexts !! context) ++ [name])
  else contexts !! context.
Proof.
unfold add_to_context. destruct (decide (context = m)) as [-> | Hne].
- destruct (contexts !! m); by rewrite lookup_insert_eq.
- destruct (contexts !! m); by rewrite lookup_insert_ne.
Qed.

Lemma lookup_add_contexts name modes contexts context :
fold_left (add_to_context name) modes contexts !! context
= if decide (context ∈ modes)
  then Some (default [] (contexts !! context)
             ++ replicate (length (filter (eq context) modes)) name)
  else contexts !! context.
Proof.
revert contexts. induction modes as [|m modes IH]; intros contexts; cbn [fold_left].
- rewrite decide_False; [done | apply not_elem_of_nil].
- rewrite IH, lookup_add_to_context.
  destruct (decide (context = m)) as [<- | Hne].
  + rewrite (decide_True (P := context ∈ context :: modes)) by left.
    rewrite filter_cons_True by done. cbn [length replicate].
    destruct (decide (context ∈ modes)) as [Hin | Hout].
    * unfold default at 1. cbn [from_option]. unfold id. by rewrite <- app_assoc.
    * assert (filter (eq context) modes = []) as ->; [| done].
      apply elem_of_nil_inv. intros x [<- Hx]%list_elem_of_filter. done.
  + rewrite filter_cons_False by done.
    destruct (decide (context ∈ modes)) as [Hin | Hout].
    * rewrite decide_True; [done | by right].
    * rewrite decide_False; [done |]. intros [? | ?]%elem_of_cons; congruence.
Qed.

(** X14. [register_tool] appends the name of the tool to the bucket of every
  context it declares, once per occurrence in [context_modes], creating
  the bucket where there is none; earlier names stay in front and the
  other buckets are untouched. *)
Theorem register_tool_appends_to_contexts (r : ToolRegistry.t) (tool_class : ToolClass)
  (context : string) :
_contexts (register_tool r tool_class) !! context
= if decide (context ∈ ToolMetadata.context_modes (cls_metadata tool_class))
  then Some (default [] (_contexts r !! context)
             ++ replicate
                  (length (filter (eq context)
                             (ToolMetadata.context_modes (cls_metadata tool_class))))
                  (ToolMetadata.name (cls_metadata tool_class)))
  else _contexts r !! context.
Proof. unfold register_tool. cbn [_contexts]. apply lookup_add_contexts. Qed.
End RegistryExtras.

(** Case analysis on an innermost scrutinee of the goal. *)
Ltac case_scrutinee :=
  match goal with
  | |- context [match ?x with _ => _ end] =>
      lazymatch x with
      | context [match _ with _ => _ end] => fail
      | _ => destruct x eqn:?
      end
  end.

Section ExecuteExtras.
Import ToolRegistry.
Variable pickle_size : string -> Z.

Lemma check_cache_frame tool cache_key validated_params w :
w_os (check_cache tool cache_key validated_params w).2 = w_os w /\
w_calls (check_cache tool cache_key validated_params w).2 = w_calls w.
Proof.
unfold check_cache, cache_manager_get, get_cache, reading, mbind, M_bind, bind, mret, M_ret,
  ret.
repeat (case_scrutinee; cbv beta; cbn [fst snd w_calls w_os w_cache]);
  simplify_eq; cbn [fst snd w_calls w_os w_cache]; done.
Qed.

(** X15. The tool is found and may run in the context, validation and the
  cache-key function return, the cache lookup finds nothing, the
  [pre_execute_hook] returns and [apply] raises an exception. Then
  [execute_tool] raises: the exception itself when it is a [ToolError],
  otherwise a [ToolError] for this tool with the message [Execution
  failed:] and the text of the exception, which is also kept in the
  details as [original_error]. The [pre_execute_hook] and [apply] were
  invoked, the [post_execute_hook] was not, what [apply] did to the file
  system stays, and the cache manager is as the lookup left it: nothing was
  stored. *)
Theorem execute_tool_wraps_apply_failure (r r' : ToolRegistry.t) (tool : Tool.t)
  (name : string) (context : option string) (kw validated_params : kwargs) (w : world)
  (cache_key : option string) (os1 os2 : os_state) (e : exn) :
get_tool r name = (Some tool, r') ->
Tool.can_execute tool context = true ->
validate_params (Tool.tool_class tool) (Tool.project_root tool) (w_os w) kw
  = Ok validated_params ->
get_cache_key (Tool.tool_class tool) (Tool.project_root tool) (w_os w) validated_params
  = Ok cache_key ->
(check_cache tool cache_key validated_params w).1 = Ok None ->
pre_execute_hook (Tool.tool_class tool) (Tool.project_root tool) (w_os w) validated_params
  = (Ok tt, os1) ->
apply (Tool.tool_class tool) (Tool.project_root tool) os1 validated_params
  = (Raise e, os2) ->
execute_tool pickle_size r name context kw w
= (Raise match e with
         | ToolError _ _ _ => e
         | OtherError text =>
             ToolError ("Execution failed: " ++ text) name
               {[ "original_error"%string := text ]}
         end,
   r',
   World os2 (w_cache (check_cache tool cache_key validated_params w).2)
     (w_calls w ++ [CallPreExecuteHook name; CallApply name])).
Proof.
intros Hget Hcan Hvalid Hkey Hlookup Hpre Happly.
destruct (check_cache_frame tool cache_key validated_params w) as [Hos Hcalls].
unfold execute_tool. rewrite Hget, Hcan. cbn [negb].
unfold wrap_errors, execute_body, calling, reading, mbind, M_bind, bind, mret, M_ret, ret.
rewrite Hvalid, Hkey.
destruct (check_cache tool cache_key validated_params w) as [looked w1].
cbn [fst snd] in Hlookup, Hos, Hcalls. subst looked.
rewrite Hos, Hcalls, Hpre. cbn [w_os w_cache w_calls]. rewrite Happly.
rewrite <- app_assoc. by destruct e.
Qed.

(** X16. One call of [execute_tool] invokes a prefix of [pre_execute_hook],
  [apply], [post_execute_hook], in this order and each at most once; when
  it returns a result it invoked none of them (a cache hit) or all
  three. *)
Theorem execute_tool_calls_in_order (r : ToolRegistry.t) (name : string)
  (context : option string) (kw : kwargs) (w : world) :
exists k : nat,
  w_calls (execute_tool pickle_size r name context kw w).2
    = w_calls w ++ take k (execution_calls name) /\
  match (execute_tool pickle_size r name context kw w).1.1 with
  | Ok _ => k = 0%nat \/ k = 3%nat
  | Raise _ => (k <= 3)%nat
  end.
Proof.
unfold execute_tool. destruct (get_tool r name) as [[tool|] r'].
2:{ exists 0%nat. cbn. rewrite app_nil_r. split; [done | lia]. }
destruct (negb (Tool.can_execute tool context)).
{ exists 0%nat. cbn. rewrite app_nil_r. split; [done | lia]. }
unfold wrap_errors, execute_body, check_cache, store_result, cache_manager_get,
  cache_manager_set, get_cache, calling, reading, mbind, M_bind, bind, mret, M_ret, ret.
unfold execution_calls.
repeat (case_scrutinee; cbv beta; cbn [fst snd w_calls w_os w_cache]);
  simplify_eq; cbn [fst snd w_calls w_os w_cache];
  rewrite <- ?app_assoc;
  first [ exists 0%nat; cbn; rewrite ?app_nil_r; split; [done | lia]
        | exists 1%nat; cbn; split; [done | lia]
        | exists 2%nat; cbn; split; [done | lia]
        | exists 3%nat; cbn; split; [done | lia] ].
Qed.

(** Without a cache manager no execution makes one, whether it returns or
  raises. *)
Lemma execute_tool_keeps_cache_absent (r : ToolRegistry.t) (name : string)
  (context : option string) (kw : kwargs) (w : world) :
w_cache w = None ->
w_cache (execute_tool pickle_size r name context kw w).2 = None.
Proof.
intros Hnone. unfold execute_tool. destruct (get_tool r name) as [[tool|] r']; [| done].
destruct (negb (Tool.can_execute tool context)); [done |].
unfold wrap_errors, execute_body, check_cache, store_result, cache_manager_get,
  cache_manager_set, get_cache, calling, reading, mbind, M_bind, bind, mret, M_ret, ret.
repeat (case_scrutinee; cbv beta; cbn [fst snd w_calls w_os w_cache]);
  simplify_eq; cbn [fst snd w_calls w_os w_cache]; congruence.
Qed.

(** X17. When importing the cache manager raises [ImportError],
  [execute_tool] proceeds without caching. The tool is found and may run in
  the context, validation and the cache-key function return, the
  dependency function returns when there is a cache key, and the hooks and
  [apply] return. Then [execute_tool] returns the output of [apply], with
  or without a cache key; the [pre_execute_hook], [apply] and the
  [post_execute_hook] were invoked once each, in this order, each on the
  file system the one before left; and there is still no cache
  manager. *)
Theorem execute_tool_without_cache_manager (r r' : ToolRegistry.t) (tool : Tool.t)
  (name : string) (context : option string) (kw validated_params : kwargs) (w : world)
  (cache_key : option string) (os1 os2 os3 : os_state) (output : string) :
w_cache w = None ->
get_tool r name = (Some tool, r') ->
Tool.can_execute tool context = true ->
validate_params (Tool.tool_class tool) (Tool.project_root tool) (w_os w) kw
  = Ok validated_params ->
get_cache_key (Tool.tool_class tool) (Tool.project_root tool) (w_os w) validated_params
  = Ok cache_key ->
(Str.truthy_opt cache_key = true ->
 exists file_deps,
   get_file_dependencies (Tool.tool_class tool) (Tool.project_root tool) (w_os w)
     validated_params = Ok file_deps) ->
pre_execute_hook (Tool.tool_class tool) (Tool.project_root tool) (w_os w) validated_params
  = (Ok tt, os1) ->
apply (Tool.tool_class tool) (Tool.project_root tool) os1 validated_params
  = (Ok output, os2) ->
post_execute_hook (Tool.tool_class tool) (Tool.project_root tool) os2 output validated_params
  = (Ok tt, os3) ->
execute_tool pickle_size r name context kw w
= (Ok output, r', World os3 None (w_calls w ++ execution_calls name)).
Proof.
intros Hnone Hget Hcan Hvalid Hkey Hdeps Hpre Happly Hpost.
unfold execute_tool. rewrite Hget, Hcan. cbn [negb].
unfold wrap_errors, execute_body, check_cache, store_result, get_cache, calling, reading,
  mbind, M_bind, bind, mret, M_ret, ret.
rewrite Hvalid, Hkey. unfold execution_calls.
destruct (Str.truthy_opt cache_key) eqn:Htruthy.
- destruct (Hdeps eq_refl) as [file_deps ->]. rewrite Hnone. cbv beta iota.
  rewrite Hpre. cbn [w_os w_cache w_calls]. rewrite Happly. cbn [w_os w_cache w_calls].
  rewrite Hpost. cbn [w_os w_cache w_calls]. rewrite Hnone. by rewrite <- !app_assoc.
- cbv beta iota.
  rewrite Hpre. cbn [w_os w_cache w_calls]. rewrite Happly. cbn [w_os w_cache w_calls].
  rewrite Hpost. cbn [w_os w_cache w_calls]. rewrite Hnone. by rewrite <- !app_assoc.
Qed.

(** X18. For a tool whose [get_cache_key] never returns a non-empty key,
  [execute_tool] leaves the cache manager as it was: nothing is looked
  up, counted or stored. *)
Theorem execute_tool_without_cache_key (r : ToolRegistry.t) (name : string)
  (context : option string) (kw : kwargs) (w : world) (tool : Tool.t) :
(get_tool r name).1 = Some tool ->
(forall project_root os validated_params cache_key,
   get_cache_key (Tool.tool_class tool) project_root os validated_params = Ok cache_key ->
   Str.truthy_opt cache_key = false) ->
w_cache (execute_tool pickle_size r name context kw w).2 = w_cache w.
Proof.
intros Htool Hdeclines. unfold execute_tool.
destruct (get_tool r name) as [[tool'|] r']; [| done]. cbn [fst] in Htool.
injection Htool as ->.
destruct (negb (Tool.can_execute tool context)); [done |].
unfold wrap_errors, execute_body, check_cache, store_result, cache_manager_get,
  cache_manager_set, get_cache, calling, reading, mbind, M_bind, bind, mret, M_ret, ret.
destruct (validate_params _ _ _ _) as [validated_params | e]; [| by destruct e].
destruct (get_cache_key _ _ _ _) as [cache_key | e] eqn:Hkey; [| by destruct e].
rewrite (Hdeclines _ _ _ _ Hkey).
repeat (case_scrutinee; cbv beta; cbn [fst snd w_calls w_os w_cache]);
  simplify_eq; cbn [fst snd w_calls w_os w_cache]; done.
Qed.


End ExecuteExtras.

Section PathFacts.
Local Open Scope string_scope.

Lemma isabs_append a b : Str.truthy a = true -> os_path.isabs (a ++ b) = os_path.isabs a.
Proof. destruct a as [|x a]; [done |]. intros _. rewrite append_cons. reflexivity. Qed.

Lemma isabs_join a b : os_path.isabs (os_path.join a b) = os_path.isabs a || os_path.isabs b.
Proof.
unfold os_path.join. fold (os_path.isabs b).
destruct (os_path.isabs b) eqn:Hb; [by rewrite Hb, orb_true_r |].
rewrite orb_false_r. destruct (Str.truthy a) eqn:Ha; cbn [negb orb].
- destruct (Str.endswith "/" a); by rewrite isabs_append.
- destruct a; [| done]. by rewrite append_nil.
Qed.
End PathFacts.

(** X22. With an absolute [project_root], [validate_params] of [read_file]
    fails only when [file_path] is missing or empty, with the [ToolError]
    that says so; otherwise it returns exactly one parameter, an absolute
    [file_path], which validates to itself (as [apply] validates again) and
    is the one dependency [get_file_dependencies] declares. *)
Theorem read_file_validate_params_normalizes (project_root : string) (os os' : os_state)
    (kw : kwargs) :
  os_path.isabs project_root = true ->
  match ReadFileTool.validate_params project_root os kw with
  | Raise e =>
      Str.truthy_opt (kw !! "file_path"%string) = false /\
      e = ToolError "file_path parameter is required" "read_file" ∅
  | Ok validated_params =>
      exists file_path,
        validated_params = {[ "file_path"%string := file_path ]} /\
        os_path.isabs file_path = true /\
        ReadFileTool.validate_params project_root os' validated_params
          = Ok validated_params /\
        ReadFileTool.get_file_dependencies project_root os' validated_params
          = Ok (Some [file_path])
  end.
Proof.
  intros Hroot. unfold ReadFileTool.validate_params at 1.
  destruct (Str.truthy_opt (kw !! "file_path"%string)) eqn:Hgiven; cbn [negb]; [| done].
  destruct (kw !! "file_path"%string) as [given|]; [| done]. cbn [default from_option]. unfold id.
  cbn [Str.truthy_opt] in Hgiven.
  set (file_path := if negb (os_path.isabs given) then os_path.join project_root given
                    else given).
  assert (os_path.isabs file_path = true) as Habs.
  { unfold file_path. destruct (os_path.isabs given) eqn:Hg; cbn [negb]; [done |].
    by rewrite isabs_join, Hroot. }
  assert (Str.truthy file_path = true) as Htruthy.
  { destruct file_path; [discriminate Habs | done]. }
  exists file_path. split; [done |]. split; [exact Habs |].
  unfold ReadFileTool.validate_params, ReadFileTool.get_file_dependencies.
  rewrite lookup_singleton_eq. cbn [Str.truthy_opt default from_option]. unfold id.
  by rewrite Htruthy, Habs.
Qed.

Lemma read_file_validate_params_normalizes_witness :
  match ReadFileTool.validate_params "/repo" Demo.os_hello
          {[ "file_path"%string := "notes.txt"%string ]} with
  | Raise e =>
      Str.truthy_opt (({[ "file_path"%string := "notes.txt"%string ]} : kwargs)
                        !! "file_path"%string) = false /\
      e = ToolError "file_path parameter is required" "read_file" ∅
  | Ok validated_params =>
      exists file_path,
        validated_params = {[ "file_path"%string := file_path ]} /\
        os_path.isabs file_path = true /\
        ReadFileTool.validate_params "/repo" Demo.os_world validated_params
          = Ok validated_params /\
        ReadFileTool.get_file_dependencies "/repo" Demo.os_world validated_params
          = Ok (Some [file_path])
  end.
Proof.
  apply (read_file_validate_params_normalizes "/repo" Demo.os_hello Demo.os_world
           {[ "file_path"%string := "notes.txt"%string ]}).
  reflexivity.
Defined.

Section ExecuteFailures.
Import ToolRegistry.
Variable pickle_size : string -> Z.

(** X20. When [validate_params] raises, [execute_tool] raises the same
  [ToolError], or wraps any other exception as
  [Execution failed: ...] under the name of the tool with the original
  text in [details]; the world is untouched: no hook ran and the cache was
  not consulted. *)
Theorem execute_tool_validation_failure (r r' : ToolRegistry.t) (tool : Tool.t)
  (name : string) (context : option string) (kw : kwargs) (w : world) (e : exn) :
get_tool r name = (Some tool, r') ->
Tool.can_execute tool context = true ->
validate_params (Tool.tool_class tool) (Tool.project_root tool) (w_os w) kw = Raise e ->
execute_tool pickle_size r name context kw w
= (Raise match e with
         | ToolError _ _ _ => e
         | OtherError text =>
             ToolError ("Execution failed: " ++ text) name
               {[ "original_error"%string := text ]}
         end, r', w).
Proof.
intros Hget Hcan Hvalid. unfold execute_tool. rewrite Hget, Hcan. cbn [negb].
unfold wrap_errors, execute_body, reading, mbind, M_bind, bind. rewrite Hvalid.
by destruct e.
Qed.

(** X21. In a registry built by registrations, lookups and executions,
  [get_tool] returns [None] exactly for the names no class is registered
  under. *)
Theorem get_tool_none_iff_unregistered (r : ToolRegistry.t) (name : string) :
reachable pickle_size r ->
(get_tool r name).1 = None <-> _tools r !! name = None.
Proof.
intros Hreach. apply reachable_instances_registered in Hreach. split.
- unfold get_tool. destruct (_instances r !! name); [done |].
  by destruct (_tools r !! name).
- intros Hnone. by rewrite (get_tool_unregistered r name Hreach Hnone).
Qed.
End ExecuteFailures.



(** X24. When [validate_params] of [analyze_file_structure] succeeds, it
    returns exactly one parameter, a [file_path] that exists; on these
    parameters and the same file system [get_file_dependencies] declares
    that file as the one dependency, and the cache key names it. *)
Theorem analyze_file_structure_depends_on_its_file (project_root : string) (os : os_state)
    (kw validated_params : kwargs) :
  AnalyzeFileStructureParams.validate_params project_root os kw = Ok validated_params ->
  exists file_path,
    validated_params = {[ "file_path"%string := file_path ]} /\
    os_path_exists os file_path = true /\
    AnalyzeFileStructureParams.get_file_dependencies project_root os validated_params
      = Ok (Some [file_path]) /\
    AnalyzeFileStructureTool.get_cache_key project_root os validated_params
      = Ok (Some ("analyze_file_structure:" ++ file_path)%string).
Proof.
  unfold AnalyzeFileStructureParams.validate_params at 1.
  destruct (Str.truthy_opt (kw !! "file_path"%string)) eqn:Hgiven; cbn [negb]; [| done].
  destruct (kw !! "file_path"%string) as [given|]; [| done].
  cbn [default from_option]. unfold id.
  set (file_path := if negb (os_path.isabs given) then os_path.join project_root given
                    else given).
  destruct (os_path_exists os file_path) eqn:Hexists; cbn [negb]; [| done].
  intros [= <-]. exists file_path.
  assert (Str.truthy file_path = true) as Htruthy.
  { unfold file_path. cbn [Str.truthy_opt] in Hgiven.
    destruct (os_path.isabs given) eqn:Habs; cbn [negb]; [done |].
    unfold os_path.join. fold (os_path.isabs given). rewrite Habs.
    destruct given as [|c given]; [done |].
    destruct (negb (Str.truthy project_root) || Str.endswith "/" project_root);
      by destruct project_root. }
  split; [done |]. split; [done |].
  unfold AnalyzeFileStructureParams.get_file_dependencies,
    AnalyzeFileStructureTool.get_cache_key.
  rewrite lookup_singleton_eq. cbn [default from_option]. unfold id.
  by rewrite Htruthy, Hexists.
Qed.

Lemma analyze_file_structure_depends_on_its_file_witness :
  exists file_path,
    ({[ "file_path"%string := "/repo/notes.txt"%string ]} : kwargs)
      = {[ "file_path"%string := file_path ]} /\
    os_path_exists (Demo.os_notes Demo.t0) file_path = true /\
    AnalyzeFileStructureParams.get_file_dependencies "/repo" (Demo.os_notes Demo.t0)
      {[ "file_path"%string := "/repo/notes.txt"%string ]} = Ok (Some [file_path]) /\
    AnalyzeFileStructureTool.get_cache_key "/repo" (Demo.os_notes Demo.t0)
      {[ "file_path"%string := "/repo/notes.txt"%string ]}
      = Ok (Some ("analyze_file_structure:" ++ file_path)%string).
Proof.
  apply (analyze_file_structure_depends_on_its_file "/repo" (Demo.os_notes Demo.t0)
           {[ "file_path"%string := "notes.txt"%string ]}
           {[ "file_path"%string := "/repo/notes.txt"%string ]}).
  vm_compute. reflexivity.
Defined.

(** ** Instances of the theorems above *)

Lemma set_records_dependency_hashes_witness :
  CacheManager._file_hashes Demo.after_hello !! "a.txt"%string
    = Some (CacheManager._get_file_hash Demo.os_hello "a.txt") /\
  CacheManager.invalidate_file Demo.os_hello Demo.after_hello "a.txt" = (0, Demo.after_hello).
Proof.
  apply (set_records_dependency_hashes Demo.pickle_size Demo.os_hello Demo.os_hello Demo.fresh
           "k" "v1" Demo.deps "a.txt").
  - left.
  - reflexivity.
Defined.

Lemma invalidate_file_keeps_other_entries_witness :
  CacheManager.cache_dir (CacheManager.invalidate_file Demo.os_world Demo.after_hello "a.txt").2
    !! "6c4e7ad8a4cbe142098e3dbd4dcbf091.cache"%string
  = CacheManager.cache_dir Demo.after_hello !! "6c4e7ad8a4cbe142098e3dbd4dcbf091.cache"%string.
Proof.
  apply (invalidate_file_keeps_other_entries Demo.os_world Demo.after_hello "a.txt"
           "6c4e7ad8a4cbe142098e3dbd4dcbf091.cache").
  left. vm_compute. reflexivity.
Defined.

Lemma set_keeps_cache_within_limit_witness :
  CacheManager.total_size
    (CacheManager.glob_cache
       (CacheManager.cache_dir
          (CacheManager.set Demo.pickle_size Demo.os_hello Demo2.crowded "k" "v1" Demo.deps)))
    <= CacheManager.max_size_mb Demo2.crowded * 1024 * 1024 /\
  CacheManager.st_cache_size
    (CacheManager.get_stats
       (CacheManager.set Demo.pickle_size Demo.os_hello Demo2.crowded "k" "v1" Demo.deps))
    <= CacheManager.max_size_mb Demo2.crowded * 1024 * 1024.
Proof.
  apply (set_keeps_cache_within_limit Demo.pickle_size Demo.os_hello Demo2.crowded "k" "v1"
           Demo.deps).
  vm_compute. discriminate.
Defined.

Lemma cleanup_evicts_oldest_first_witness :
  cf_atime (CacheFile (Pickled "x") 5 1048576) <= cf_atime (CacheFile (Pickled "y") 9 1048576).
Proof.
  apply (cleanup_evicts_oldest_first Demo2.crowded "a.cache" "b.cache"
           (CacheFile (Pickled "x") 5 1048576) (CacheFile (Pickled "y") 9 1048576)).
  - apply elem_of_glob_cache. split; reflexivity.
  - apply elem_of_glob_cache. split; reflexivity.
  - vm_compute. reflexivity.
  - vm_compute. eauto.
Defined.

Lemma get_tool_memoizes_witness :
exists tool,
  (ToolRegistry.get_tool DemoTool.registry "demo").1 = Some tool /\
  ToolRegistry._instances (ToolRegistry.get_tool DemoTool.registry "demo").2 !! "demo"%string
    = Some tool /\
  (forall r', later Demo.pickle_size (ToolRegistry.get_tool DemoTool.registry "demo").2 r' ->
              ToolRegistry.get_tool r' "demo" = (Some tool, r')) /\
  (ToolRegistry._instances DemoTool.registry !! "demo"%string = None ->
   tool = Tool.new DemoTool.First) /\
  (forall memoized,
     ToolRegistry._instances DemoTool.registry !! "demo"%string = Some memoized ->
     tool = memoized /\ (ToolRegistry.get_tool DemoTool.registry "demo").2 = DemoTool.registry) /\
  delete "demo"%string
         (ToolRegistry._instances (ToolRegistry.get_tool DemoTool.registry "demo").2)
    = delete "demo"%string (ToolRegistry._instances DemoTool.registry) /\
  ToolRegistry._tools (ToolRegistry.get_tool DemoTool.registry "demo").2
    = ToolRegistry._tools DemoTool.registry /\
  ToolRegistry._contexts (ToolRegistry.get_tool DemoTool.registry "demo").2
    = ToolRegistry._contexts DemoTool.registry.
Proof.
apply (get_tool_memoizes Demo.pickle_size DemoTool.registry "demo" DemoTool.First).
reflexivity.
Defined.

Lemma execute_tool_wraps_apply_failure_witness :
ToolRegistry.execute_tool Demo.pickle_size Demo2.failing_registry "failing" None ∅
  DemoTool.world0
= (Raise (ToolError "Execution failed: bad value" "failing"
            {[ "original_error"%string := "bad value"%string ]}),
   (ToolRegistry.get_tool Demo2.failing_registry "failing").2,
   World Demo.os_hello (Some (CacheManager.add_miss Demo.fresh))
     [CallPreExecuteHook "failing"; CallApply "failing"]).
Proof.
apply (execute_tool_wraps_apply_failure Demo.pickle_size Demo2.failing_registry
         (ToolRegistry.get_tool Demo2.failing_registry "failing").2
         (Tool.new Demo2.Failing) "failing" None ∅ ∅ DemoTool.world0
         (Some "failing-key"%string) Demo.os_hello Demo.os_hello
         (OtherError "bad value")).
- reflexivity.
- reflexivity.
- reflexivity.
- reflexivity.
- vm_compute. reflexivity.
- reflexivity.
- reflexivity.
Defined.

Lemma execute_tool_without_cache_manager_witness :
ToolRegistry.execute_tool Demo.pickle_size DemoTool.registry "demo" (Some "debugging"%string) ∅
  Demo2.world_without_cache
= (Ok "first result"%string, (ToolRegistry.get_tool DemoTool.registry "demo").2,
   World Demo.os_hello None (execution_calls "demo")).
Proof.
apply (execute_tool_without_cache_manager Demo.pickle_size DemoTool.registry
         (ToolRegistry.get_tool DemoTool.registry "demo").2 (Tool.new DemoTool.First)
         "demo" (Some "debugging"%string) ∅ ∅ Demo2.world_without_cache
         (Some "fixed-key"%string) Demo.os_hello Demo.os_hello Demo.os_hello "first result").
- reflexivity.
- reflexivity.
- reflexivity.
- reflexivity.
- reflexivity.
- intros _. eexists. reflexivity.
- reflexivity.
- reflexivity.
- reflexivity.
Defined.

Lemma execute_tool_without_cache_key_witness :
  w_cache (ToolRegistry.execute_tool Demo.pickle_size Demo2.registry "plain" None ∅
             DemoTool.world0).2 = w_cache DemoTool.world0.
Proof.
  apply (execute_tool_without_cache_key Demo.pickle_size Demo2.registry "plain" None ∅
           DemoTool.world0 (Tool.new Demo2.Plain)).
  - vm_compute. reflexivity.
  - intros project_root os validated_params cache_key Hkey.
    injection Hkey as <-. reflexivity.
Defined.


Lemma execute_tool_validation_failure_witness :
  ToolRegistry.execute_tool Demo.pickle_size Demo2.registry "strict" None ∅ DemoTool.world0
  = (Raise (ToolError "file_path parameter is required" "read_file" ∅),
     (ToolRegistry.get_tool Demo2.registry "strict").2, DemoTool.world0).
Proof.
  apply (execute_tool_validation_failure Demo.pickle_size Demo2.registry
           (ToolRegistry.get_tool Demo2.registry "strict").2 (Tool.new Demo2.Strict)
           "strict" None ∅ DemoTool.world0
           (ToolError "file_path parameter is required" "read_file" ∅)).
  - vm_compute. reflexivity.
  - reflexivity.
  - reflexivity.
Defined.

Lemma get_tool_none_iff_unregistered_witness :
  (ToolRegistry.get_tool DemoTool.registry1 "missing").1 = None
  <-> ToolRegistry._tools DemoTool.registry1 !! "missing"%string = None.
Proof.
  apply (get_tool_none_iff_unregistered Demo.pickle_size DemoTool.registry1 "missing").
  apply reachable_execute_tool, reachable_register_tool, reachable_init.
Defined.
